(** * MalignancyProcessor: patch extraction and batched inference

    A shallow embedding of [hiera-luna25-finetuning/processor.py].

    The processor is a Python object whose methods raise exceptions, write
    to the process-wide logger and call into collaborators that are not
    part of the file (the [dataloader] module, the [models] package, torch
    and torchvision).  The embedding keeps that shape:

    - a method is a computation in a small monad [M S A] that threads the
      object ([S]), returns a value or an exception, and records every
      observable action (a log line, a call to the resampler, a checkpoint
      load, a forward pass) in an event list;
    - the collaborators whose behaviour the file does not fix are the
      fields of a record [Env];
    - arrays are nested lists of samples; samples are rationals, so the
      arithmetic of the normaliser is exact and float32 rounding is left
      out of the model. *)

From Stdlib Require Import String Ascii List ZArith QArith Qabs Bool Lia Lqa.
From Stdlib Require Import DecimalString.
From stdpp Require Import gmap strings.
Import ListNotations.

#[local] Set Warnings "-register-all".

Local Open Scope string_scope.
Local Open Scope list_scope.
Local Open Scope bool_scope.

(** ** Python strings

    [str.lower], [str.startswith], [str.endswith] and the [in] operator
    on strings of 8-bit characters (only ASCII letters have a case). *)

Module PyStr.

Definition lower_ascii (c : ascii) : ascii :=
  let n := N_of_ascii c in
  if ((65 <=? n) && (n <=? 90))%N then ascii_of_N (n + 32) else c.

Fixpoint lower (s : string) : string :=
  match s with
  | EmptyString => EmptyString
  | String c r => String (lower_ascii c) (lower r)
  end.

Fixpoint startswith (pre s : string) : bool :=
  match pre, s with
  | EmptyString, _ => true
  | String _ _, EmptyString => false
  | String a pre', String b s' => Ascii.eqb a b && startswith pre' s'
  end.

(** [contains sub s] is Python's [sub in s]. *)
Fixpoint contains (sub s : string) : bool :=
  startswith sub s ||
  match s with
  | EmptyString => false
  | String _ r => contains sub r
  end.

(** [s.endswith("/")]. *)
Fixpoint endswith_sep (s : string) : bool :=
  match s with
  | EmptyString => false
  | String c EmptyString => Ascii.eqb c "/"
  | String _ r => endswith_sep r
  end.

(** [posixpath.join]: an absolute component discards what came before it;
    a separator is inserted unless the path so far is empty or already
    ends with one. *)
Definition join_step (path b : string) : string :=
  if startswith "/" b then b
  else if (path =? "") || endswith_sep path then path +:+ b
  else path +:+ "/" +:+ b.

Definition os_path_join (a : string) (p : list string) : string :=
  fold_left join_step p a.

End PyStr.

Import PyStr.

(** ** Exceptions and results *)

Inductive exn : Type :=
| ValueError (msg : string)
| KeyError (key : string)
| AttributeError (attr : string)
| RuntimeError (msg : string)
| ZeroDivisionError (msg : string)
| OSError (msg : string).

Inductive result (A : Type) : Type :=
| Ok (a : A)
| Err (e : exn).

Arguments Ok {A} a.
Arguments Err {A} e.

(** ** Arrays

    A numpy array or torch tensor is a nested list of samples: [Scalar]
    is a 0-dimensional value and [Array xs] adds a leading axis. *)

Inductive ndarray : Type :=
| Scalar (x : Q)
| Array (xs : list ndarray).

Fixpoint shape (t : ndarray) : list nat :=
  match t with
  | Scalar _ => []
  | Array xs => length xs :: match xs with
                             | [] => []
                             | x :: _ => shape x
                             end
  end.

Definition ndim (t : ndarray) : nat := length (shape t).

(** An elementwise operation ([astype], [torch.sigmoid], ...). *)
Fixpoint tmap (f : Q -> Q) (t : ndarray) : ndarray :=
  match t with
  | Scalar x => Scalar (f x)
  | Array xs => Array (map (tmap f) xs)
  end.

(** [len(t)]: the size of the leading axis. *)
Definition len (t : ndarray) : nat :=
  match t with
  | Scalar _ => 0
  | Array xs => length xs
  end.

(** [t[i]] along the leading axis. *)
Definition item (t : ndarray) (i : nat) : option ndarray :=
  match t with
  | Scalar _ => None
  | Array xs => nth_error xs i
  end.

(** [t[i0, i1, ...]]. *)
Fixpoint at_index (t : ndarray) (idx : list nat) : option ndarray :=
  match idx with
  | [] => Some t
  | i :: idx' =>
      match item t i with
      | Some u => at_index u idx'
      | None => None
      end
  end.

(** ** The classifiers

    The three classes of the [models] package are opaque scorers.  What the
    processor does with a model object is construct it, move it to the
    device, load a state dict into it, switch it to evaluation mode and
    call it; the record keeps exactly that state. *)

Inductive Variant : Type := V_Hiera3D | V_Hiera2D | V_ViT2D.

Definition StateDict : Type := list (string * ndarray).

Record Model : Type := mkModel {
  arch : Variant;
  image_size : Z;
  image_depth : option Z;
  kind : string;
  on_cuda : bool;
  state_dict : option StateDict;
  training : bool
}.

(** Modelled from the spec: [models.model_hiera.Hiera3D] is not in src/.
    "ModelVariant: one of {3D-Hiera, 2D-Hiera, 2D-ViT}, each an opaque
    function Tensor->Tensor"; a fresh torch module is in training mode and
    on the host. *)
Definition Hiera3D (image_size image_depth : Z) (kind : string) : Model :=
  mkModel V_Hiera3D image_size (Some image_depth) kind false None true.

(** Modelled from the spec: [models.model_hiera.Hiera2D] is not in src/
    (see [Hiera3D]). *)
Definition Hiera2D (image_size : Z) (kind : string) : Model :=
  mkModel V_Hiera2D image_size None kind false None true.

(** Modelled from the spec: [models.model_2d_vit.ViT2D] is not in src/
    (see [Hiera3D]). *)
Definition ViT2D (image_size : Z) (kind : string) : Model :=
  mkModel V_ViT2D image_size None kind false None true.

(** [m.cuda()] *)
Definition cuda (m : Model) : Model :=
  mkModel (arch m) (image_size m) (image_depth m) (kind m) true
          (state_dict m) (training m).

(** [m.load_state_dict(ckpt)], once the checkpoint has been accepted. *)
Definition set_state_dict (m : Model) (ckpt : StateDict) : Model :=
  mkModel (arch m) (image_size m) (image_depth m) (kind m) (on_cuda m)
          (Some ckpt) (training m).

(** [m.eval()] *)
Definition eval (m : Model) : Model :=
  mkModel (arch m) (image_size m) (image_depth m) (kind m) (on_cuda m)
          (state_dict m) false.

(** ** The processor object *)

Definition Coord : Type := list Q.

Record Processor : Type := mkProcessor {
  size_px : Z;
  size_mm : Z;
  depth_px : Z;
  model_name : string;
  mode : string;
  suppress_logs : bool;
  model_3d : option Model;     (* set only by the 3D branch of __init__ *)
  model_2d : option Model;     (* set only by the 2D branches of __init__ *)
  model_root : string;
  image : option ndarray;      (* set by define_inputs *)
  header : option (gmap string ndarray);
  coords : option (list Coord)
}.

(** ** Observable actions *)

Inductive Event : Type :=
| LogInfo (msg : string)
| Construct (v : Variant)
| ExtractPatch (coord : Coord) (output_shape : list Z)
               (voxel_spacing : Q * Q * Q) (coord_space_world : bool)
               (mode : string)
| ToCuda (batch : ndarray)
| TorchLoad (path : string)
| LoadStateDict (v : Variant)
| SetEval (v : Variant)
| NoGradEnter
| Forward (m : Model) (batch : ndarray)
| NoGradExit.

(** ** The collaborators *)

Record Env : Type := mkEnv {
  (* dataloader.extract_patch(CTData, coord, srcVoxelOrigin, srcWorldMatrix,
     srcVoxelSpacing, output_shape, voxel_spacing, coord_space_world, mode) *)
  dataloader_extract_patch :
    ndarray -> Coord -> ndarray -> ndarray -> ndarray ->
    list Z -> Q * Q * Q -> bool -> string -> result ndarray;
  (* the clamp bounds of dataloader.clip_and_scale *)
  clip_lo : Q;
  clip_hi : Q;
  (* torch.load(path) *)
  torch_load : string -> result StateDict;
  (* the complaint of load_state_dict about a checkpoint, if any *)
  check_state_dict : Model -> StateDict -> option exn;
  (* model(batch) *)
  forward : Model -> ndarray -> result ndarray;
  (* the scalar logistic function behind torch.sigmoid *)
  sigmoid : Q -> Q
}.

(** ** The monad of methods

    [M S A]: from the object state [S] to a value or an exception, the new
    state, and the events of the call in the order they happened. *)

Definition M (S A : Type) : Type := S -> result A * S * list Event.

Definition ret {S A} (a : A) : M S A := fun s => (Ok a, s, []).

Definition raise {S A} (e : exn) : M S A := fun s => (Err e, s, []).

Definition bind {S A B} (m : M S A) (k : A -> M S B) : M S B :=
  fun s =>
    match m s with
    | (Ok a, s1, ev1) =>
        match k a s1 with
        | (r, s2, ev2) => (r, s2, ev1 ++ ev2)
        end
    | (Err e, s1, ev1) => (Err e, s1, ev1)
    end.

Definition emit {S} (e : Event) : M S unit := fun s => (Ok tt, s, [e]).

Definition get {S} : M S S := fun s => (Ok s, s, []).

Definition lift_result {S A} (r : result A) : M S A := fun s => (r, s, []).

Declare Scope py_scope.
Delimit Scope py_scope with py.

Notation "x <- c1 ;; c2" := (bind c1 (fun x => c2))
  (at level 100, c1 at next level, right associativity) : py_scope.
Notation "c1 ;; c2" := (bind c1 (fun _ => c2))
  (at level 100, right associativity) : py_scope.

Local Open Scope py_scope.

Definition when {S} (b : bool) (m : M S unit) : M S unit :=
  if b then m else ret tt.

(** [for x in xs: ys.append(f(x))] *)
Fixpoint for_each {S A B} (f : A -> M S B) (xs : list A) : M S (list B) :=
  match xs with
  | [] => ret []
  | x :: xs' => y <- f x ;; ys <- for_each f xs' ;; ret (y :: ys)
  end.

Definition outcome {S A} (r : result A * S * list Event) : result A :=
  fst (fst r).

Definition final {S A} (r : result A * S * list Event) : S :=
  snd (fst r).

Definition events {S A} (r : result A * S * list Event) : list Event :=
  snd r.

(** [logging.info(msg)] *)
Definition logging_info {S} (msg : string) : M S unit := emit (LogInfo msg).

(** ** [MalignancyProcessor.__init__] *)

Definition new_on_cuda {S} (m : Model) : M S Model :=
  emit (Construct (arch m)) ;; ret (cuda m).

Definition __init__ (mode : string) (suppress_logs : bool)
                    (model_name : string) : M unit Processor :=
  let size_px := 64%Z in
  let size_mm := 50%Z in
  let depth_px := 16%Z in
  let self m3 m2 :=
    mkProcessor size_px size_mm depth_px model_name mode suppress_logs
                m3 m2 "/opt/app/resources/" None None None in
  when (negb suppress_logs)
       (logging_info "Initializing the deep learning system") ;;
  if (mode =? "3D") && contains "hiera" (lower model_name) then
    m <- new_on_cuda (Hiera3D size_px depth_px "finetuned") ;;
    ret (self (Some m) None)
  else if (mode =? "2D") && contains "hiera" (lower model_name) then
    m <- new_on_cuda (Hiera2D size_px "finetuned") ;;
    ret (self None (Some m))
  else if (mode =? "2D") && contains "vit" (lower model_name) then
    m <- new_on_cuda (ViT2D size_px "finetuned") ;;
    ret (self None (Some m))
  else
    raise (ValueError "Invalid mode and/or model_name.").

(** The variant a processor holds: the class of the one model attribute
    that is set. *)
Definition variant (p : Processor) : option Variant :=
  match model_3d p, model_2d p with
  | Some m, None => Some (arch m)
  | None, Some m => Some (arch m)
  | _, _ => None
  end.

Definition is_construct (e : Event) : bool :=
  match e with Construct _ => true | _ => false end.

(** ** Array operations of numpy, torch and torchvision *)

Fixpoint map_result {A B} (f : A -> result B) (xs : list A)
  : result (list B) :=
  match xs with
  | [] => Ok []
  | x :: xs' =>
      match f x with
      | Ok y =>
          match map_result f xs' with
          | Ok ys => Ok (y :: ys)
          | Err e => Err e
          end
      | Err e => Err e
      end
  end.

(** [np.array(list_of_arrays)]: stacks along a new leading axis; arrays of
    different shapes are refused. *)
Definition np_array (xs : list ndarray) : result ndarray :=
  match xs with
  | [] => Ok (Array [])
  | x :: rest =>
      if forallb (fun y => bool_decide (shape y = shape x)) rest
      then Ok (Array xs)
      else Err (ValueError "inhomogeneous shape")
  end.

(** [patch.astype(np.float32)]: a change of dtype; on rational samples it
    keeps every value. *)
Definition astype_float32 (t : ndarray) : ndarray := t.

Definition norm_sample (m s : Q) (x : Q) : Q := (x - m) / s.

(** [image.sub(mean.view(-1,1,1)).div(std.view(-1,1,1))] on the channel
    axis: a single channel is broadcast against the statistics, otherwise
    the sizes have to agree (the text of the RuntimeError is shortened:
    torch adds the two sizes and the axis). *)
Definition normalize_channels (mean std : list Q) (chans : list ndarray)
  : result (list ndarray) :=
  match chans with
  | [c] =>
      Ok (map (fun ms => tmap (norm_sample (fst ms) (snd ms)) c)
              (combine mean std))
  | _ =>
      if (length chans =? length mean)%nat
      then Ok (map (fun cms => tmap (norm_sample (fst (snd cms))
                                                 (snd (snd cms))) (fst cms))
                   (combine chans (combine mean std)))
      else Err (RuntimeError "The size of tensor a must match the size of tensor b")
  end.

(** The channel axis is the third axis from the end; [lead] counts the
    axes in front of it. *)
Fixpoint normalize_under (lead : nat) (mean std : list Q) (t : ndarray)
  : result ndarray :=
  match t with
  | Scalar _ => Err (ValueError "Expected tensor to be a tensor image of size (..., C, H, W)")
  | Array xs =>
      match lead with
      | O =>
          match normalize_channels mean std xs with
          | Ok ys => Ok (Array ys)
          | Err e => Err e
          end
      | S lead' =>
          match map_result (normalize_under lead' mean std) xs with
          | Ok ys => Ok (Array ys)
          | Err e => Err e
          end
      end
  end.

(** [v2.Normalize(mean, std)(tensor)]; fewer than three axes are refused
    (the text of the ValueError is shortened: torchvision adds the shape
    it got). *)
Definition normalize (mean std : list Q) (t : ndarray) : result ndarray :=
  if (ndim t <? 3)%nat
  then Err (ValueError "Expected tensor to be a tensor image of size (..., C, H, W)")
  else normalize_under (ndim t - 3) mean std t.

Definition children (t : ndarray) : list ndarray :=
  match t with
  | Scalar _ => []
  | Array xs => xs
  end.

(** [str(n)] for a natural number. *)
Definition show_nat (n : nat) : string :=
  NilEmpty.string_of_uint (Nat.to_uint n).

(** [tensor.permute(1, 0, 2, 3)]: needs exactly four axes and swaps the
    first two; for another number of axes torch raises a RuntimeError
    whose text names the two numbers. *)
Definition permute_1_0_2_3 (t : ndarray) : result ndarray :=
  match shape t with
  | [_; b; _; _] =>
      Ok (Array (map (fun j =>
                        Array (map (fun r => nth j (children r) (Scalar 0))
                                   (children t)))
                     (seq 0 b)))
  | _ => Err (RuntimeError
                ("permute(sparse_coo): number of dimensions in the tensor input does not match the length of the desired ordering of dimensions i.e. input.dim() = "
                 +:+ show_nat (ndim t) +:+ " is not equal to len(dims) = 4"))
  end.

(** Modelled from the spec: the clamp of [dataloader.clip_and_scale],
    which is not in src/: "clamp intensities to a fixed source value
    range". *)
Definition clamp (lo hi x : Q) : Q :=
  if Qle_bool x lo then lo else if Qle_bool hi x then hi else x.

(** ** The methods of [MalignancyProcessor] *)

Section Methods.

Variable env : Env.

Definition getattr {A} (name : string) (f : Processor -> option A)
  : M Processor A :=
  fun self =>
    match f self with
    | Some a => (Ok a, self, [])
    | None => (Err (AttributeError name), self, [])
    end.

(** [d[key]] on a dict *)
Definition getitem {S} (d : gmap string ndarray) (key : string)
  : M S ndarray :=
  match d !! key with
  | Some v => ret v
  | None => raise (KeyError key)
  end.

(** [a / b] on Python ints *)
Definition truediv {S} (a b : Z) : M S Q :=
  if (b =? 0)%Z then raise (ZeroDivisionError "division by zero")
  else ret (inject_Z a / inject_Z b)%Q.

Definition define_inputs (image0 : ndarray) (header0 : gmap string ndarray)
                         (coords0 : list Coord) : M Processor unit :=
  fun self =>
    (Ok tt,
     mkProcessor (size_px self) (size_mm self) (depth_px self)
                 (model_name self) (mode self) (suppress_logs self)
                 (model_3d self) (model_2d self) (model_root self)
                 (Some image0) (Some header0) (Some coords0),
     []).

(** Modelled from the spec: [dataloader.clip_and_scale] is not in src/.
    "Clip-and-scale: clamp intensities to a fixed source value range and
    linearly rescale to unit range [0,1] (the exact clamp bounds are a
    fixed global constant, not per-request)"; the bounds are [clip_lo] and
    [clip_hi] of the environment.  [clip_sample] is what happens to one
    sample. *)
Definition clip_sample (x : Q) : Q :=
  ((clamp (clip_lo env) (clip_hi env) x - clip_lo env)
   / (clip_hi env - clip_lo env))%Q.

(** Modelled from the spec: [dataloader.clip_and_scale] is not in src/
    (see [clip_sample]); the call in [extract_patch] passes the patch and
    nothing else, so the range is the helper's own. *)
Definition clip_and_scale (t : ndarray) : ndarray := tmap clip_sample t.

Definition imagenet_mean : list Q := [0.485; 0.456; 0.406]%Q.
Definition imagenet_std : list Q := [0.229; 0.224; 0.225]%Q.
Definition ct_mean : list Q := [0.45; 0.45; 0.45]%Q.
Definition ct_std : list Q := [0.225; 0.225; 0.225]%Q.

Definition extract_patch (coord : Coord) (output_shape : list Z)
                         (mode_arg : string) : M Processor ndarray :=
  self <- get ;;
  CTData <- getattr "image" image ;;
  h <- getattr "header" header ;;
  srcVoxelOrigin <- getitem h "origin" ;;
  h <- getattr "header" header ;;
  srcWorldMatrix <- getitem h "transform" ;;
  h <- getattr "header" header ;;
  srcVoxelSpacing <- getitem h "spacing" ;;
  v0 <- truediv (size_mm self) (size_px self) ;;
  v1 <- truediv (size_mm self) (size_px self) ;;
  v2 <- truediv (size_mm self) (size_px self) ;;
  emit (ExtractPatch coord output_shape (v0, v1, v2) true mode_arg) ;;
  patch <- lift_result
             (dataloader_extract_patch env CTData coord srcVoxelOrigin
                srcWorldMatrix srcVoxelSpacing output_shape (v0, v1, v2)
                true mode_arg) ;;
  (* ensure same datatype... *)
  let patch := astype_float32 patch in
  (* clip and scale... *)
  let patch := clip_and_scale patch in
  (* normalize *)
  let normalize_transform :=
    if mode self =? "2D" then normalize imagenet_mean imagenet_std
    else normalize ct_mean ct_std in
  patch <- lift_result (normalize_transform patch) ;;
  patch <- (if mode self =? "3D"
            then (* transpose to (Channel, Depth, Height, Width) *)
                 lift_result (permute_1_0_2_3 patch)
            else ret patch) ;;
  ret patch.

(** Assignment through the reference that [_process_model] holds in its
    local variable [model]. *)
Definition set_model (mode_arg : string) (m : Model) : M Processor unit :=
  fun self =>
    (Ok tt,
     if mode_arg =? "3D"
     then mkProcessor (size_px self) (size_mm self) (depth_px self)
                      (model_name self) (mode self) (suppress_logs self)
                      (Some m) (model_2d self) (model_root self)
                      (image self) (header self) (coords self)
     else mkProcessor (size_px self) (size_mm self) (depth_px self)
                      (model_name self) (mode self) (suppress_logs self)
                      (model_3d self) (Some m) (model_root self)
                      (image self) (header self) (coords self),
     []).

(** [with torch.no_grad(): body]; the context is left on every exit. *)
Definition with_no_grad {S A} (body : M S A) : M S A :=
  fun s =>
    match bind (emit NoGradEnter) (fun _ => body) s with
    | (r, s', ev) => (r, s', ev ++ [NoGradExit])
    end.

(** [model.load_state_dict(ckpt)] either refuses the checkpoint or
    replaces the weights; a refusal leaves the weights of the model as
    they were (torch may by then have copied the tensors that match, which
    the state of [Model] does not record). *)
Definition _process_model (mode_arg : string) : M Processor ndarray :=
  self <- get ;;
  when (negb (suppress_logs self))
       (logging_info ("Processing in " +:+ mode_arg)) ;;
  let output_shape :=
    if mode_arg =? "3D"
    then [depth_px self; size_px self; size_px self]
    else [1%Z; size_px self; size_px self] in
  model <- (if mode_arg =? "3D" then getattr "model_3d" model_3d
            else getattr "model_2d" model_2d) ;;
  cs <- getattr "coords" coords ;;
  nodules <- for_each (fun _coord => extract_patch _coord output_shape mode_arg)
                      cs ;;
  nodules <- lift_result (np_array nodules) ;;
  emit (ToCuda nodules) ;;
  let path := os_path_join (model_root self)
                           [model_name self; "best_metric_model.pth"] in
  emit (TorchLoad path) ;;
  ckpt <- lift_result (torch_load env path) ;;
  emit (LoadStateDict (arch model)) ;;
  match check_state_dict env model ckpt with
  | Some e => raise e
  | None => set_model mode_arg (set_state_dict model ckpt)
  end ;;
  let model := set_state_dict model ckpt in
  emit (SetEval (arch model)) ;;
  set_model mode_arg (eval model) ;;
  let model := eval model in
  logits <- with_no_grad
              (emit (Forward model nodules) ;;
               lift_result (forward env model nodules)) ;;
  ret logits.

Definition predict : M Processor (ndarray * ndarray) :=
  self <- get ;;
  logits <- _process_model (mode self) ;;
  let probability := tmap (sigmoid env) logits in
  ret (probability, logits).

End Methods.


(** ** Vocabulary for the statements

    Names for what a call reads from the object and for the events it is
    expected to leave. *)

Section Observations.

Variable env : Env.

(** The voxel pitch handed to the resampler. *)
Definition pitch (p : Processor) : Q := inject_Z (size_mm p) / inject_Z (size_px p).

Definition extract_event (p : Processor) (sh : list Z) (m : string) (c : Coord)
  : Event :=
  ExtractPatch c sh (pitch p, pitch p, pitch p) true m.

(** The patch normaliser as the specification words it, three steps in
    a fixed order: clip and scale; per-channel statistics that depend on
    the mode alone; for 3D, the axes reordered. *)
Definition channel_stats (mode_self : string) : list Q * list Q :=
  if mode_self =? "2D" then (imagenet_mean, imagenet_std)
  else (ct_mean, ct_std).

Definition reorder (mode_self : string) (t : ndarray) : result ndarray :=
  if mode_self =? "3D" then permute_1_0_2_3 t else Ok t.

Definition normalizer (mode_self : string) (raw : ndarray) : result ndarray :=
  match normalize (fst (channel_stats mode_self))
                  (snd (channel_stats mode_self))
                  (clip_and_scale env raw) with
  | Ok t => reorder mode_self t
  | Err e => Err e
  end.

Definition first_missing (h : gmap string ndarray) : string :=
  match h !! "origin", h !! "transform" with
  | None, _ => "origin"
  | Some _, None => "transform"
  | Some _, Some _ => "spacing"
  end.

Definition header_complete (h : gmap string ndarray) : bool :=
  match h !! "origin", h !! "transform", h !! "spacing" with
  | Some _, Some _, Some _ => true
  | _, _, _ => false
  end.

Definition chosen_model (m : string) (p : Processor) : option Model :=
  if m =? "3D" then model_3d p else model_2d p.

Definition output_shape_for (m : string) (p : Processor) : list Z :=
  if m =? "3D" then [depth_px p; size_px p; size_px p]
  else [1%Z; size_px p; size_px p].

Definition checkpoint_path (p : Processor) : string :=
  os_path_join (model_root p) [model_name p; "best_metric_model.pth"].

Definition log_events (p : Processor) (m : string) : list Event :=
  if suppress_logs p then [] else [LogInfo ("Processing in " +:+ m)].

Definition inference_events (path : string) (model : Model)
                            (batch : ndarray) : list Event :=
  [ToCuda batch; TorchLoad path; LoadStateDict (arch model);
   SetEval (arch model); NoGradEnter; Forward model batch; NoGradExit].

Definition with_model (m : string) (model : Model) (p : Processor)
  : Processor :=
  final (set_model m model p).

(** A request is what [define_inputs] receives; [serve] is the object
    after a history of requests, each a [define_inputs] followed by a
    [predict], whatever its outcome was. *)
Definition Request : Type := ndarray * gmap string ndarray * list Coord.

Definition submit (rq : Request) (p : Processor) : Processor :=
  final (define_inputs (fst (fst rq)) (snd (fst rq)) (snd rq) p).

Fixpoint serve (p : Processor) (history : list Request) : Processor :=
  match history with
  | [] => p
  | rq :: rest => serve (final (predict env (submit rq p))) rest
  end.

(** Construction, a history of requests, then one more request: what the
    caller gets back and everything that was observable on the way. *)
Definition session (mode_arg : string) (flag : bool) (name : string)
                   (history : list Request) (rq : Request)
  : result (ndarray * ndarray) * list Event :=
  match __init__ mode_arg flag name tt with
  | (Ok p, _, ev0) =>
      let r := predict env (submit rq (serve p history)) in
      (outcome r, ev0 ++ events r)
  | (Err e, _, ev0) => (Err e, ev0)
  end.

End Observations.

(** [has_shape sh t]: [t] is a rectangular array of shape [sh]. *)
Fixpoint has_shape (sh : list nat) (t : ndarray) : bool :=
  match sh with
  | [] => match t with Scalar _ => true | Array _ => false end
  | n :: sh' =>
      match t with
      | Scalar _ => false
      | Array xs => (length xs =? n)%nat && forallb (has_shape sh') xs
      end
  end.

(** Per-channel normalisation of one (C, H, W) image with C = 3. *)
Definition norm_image (m0 m1 m2 s0 s1 s2 : Q) (t : ndarray) : ndarray :=
  match t with
  | Array [c0; c1; c2] =>
      Array [tmap (norm_sample m0 s0) c0; tmap (norm_sample m1 s1) c1;
             tmap (norm_sample m2 s2) c2]
  | _ => t
  end.

(** Per-channel normalisation of one (1, H, W) image: the one channel is
    broadcast against the three statistics. *)
Definition broadcast_image (m0 m1 m2 s0 s1 s2 : Q) (t : ndarray) : ndarray :=
  match t with
  | Array [c0] =>
      Array [tmap (norm_sample m0 s0) c0; tmap (norm_sample m1 s1) c0;
             tmap (norm_sample m2 s2) c0]
  | _ => t
  end.

Definition is_log (e : Event) : bool :=
  match e with LogInfo _ => true | _ => false end.

Definition is_extract (e : Event) : bool :=
  match e with ExtractPatch _ _ _ _ _ => true | _ => false end.

Definition is_load (e : Event) : bool :=
  match e with TorchLoad _ => true | _ => false end.

Definition is_forward (e : Event) : bool :=
  match e with Forward _ _ => true | _ => false end.

(** The events that are not diagnostic output. *)
Definition nolog (ev : list Event) : list Event :=
  List.filter (fun e => negb (is_log e)) ev.

(** [p] with another value of the [suppress_logs] attribute. *)
Definition set_flag (b : bool) (p : Processor) : Processor :=
  mkProcessor (size_px p) (size_mm p) (depth_px p) (model_name p) (mode p)
              b (model_3d p) (model_2d p) (model_root p)
              (image p) (header p) (coords p).

(** What construction establishes and every later call keeps. *)
Definition constructed (mode_arg name : string) (p : Processor) : Prop :=
  size_px p = 64%Z /\ size_mm p = 50%Z /\ depth_px p = 16%Z /\
  mode p = mode_arg /\ model_name p = name /\
  model_root p = "/opt/app/resources/" /\
  (mode_arg = "3D" \/ mode_arg = "2D") /\
  exists model, chosen_model mode_arg p = Some model /\ on_cuda model = true.

(** ** A small concrete world

    A stand-in for the collaborators, used to run the methods on concrete
    requests: the resampler answers with a two-slice, three-channel patch
    of 1x2 samples filled from the first coordinate, every checkpoint
    loads, the scorer returns one logit per item of the batch, and a
    rational squashing function stands for the logistic one. *)

Module Demo.

Definition plane (x : Q) : ndarray := Array [Array [Scalar x; Scalar (x + 1)]].

Definition patch_for (mode_arg : string) (c : Coord) : ndarray :=
  let x := nth 0 c 0%Q in
  if mode_arg =? "3D"
  then Array [Array [plane x; plane (x + 10); plane (x + 20)];
              Array [plane (x + 100); plane (x + 110); plane (x + 120)]]
  else Array [plane x; plane (x + 10); plane (x + 20)].

Definition score (patch : ndarray) : ndarray :=
  match at_index patch [0; 0; 0]%nat with
  | Some (Scalar x) => Array [Scalar x]
  | Some (Array (Scalar x :: _)) => Array [Scalar x]
  | _ => Array [Scalar 0]
  end.

Definition env : Env :=
  mkEnv (fun _ c _ _ _ _ _ _ m => Ok (patch_for m c))
        (-1000) 400
        (fun _ => Ok [])
        (fun _ _ => None)
        (fun _ batch => Ok (Array (map score (children batch))))
        (fun x => (1 + x / (1 + Qabs x)) / 2)%Q.

Definition volume : ndarray := Array [].

Definition geometry : gmap string ndarray :=
  <["origin" := Array [Scalar 0; Scalar 0; Scalar 0]]>
    (<["transform" := Array []]>
       (<["spacing" := Array [Scalar 1; Scalar 1; Scalar 1]]> ∅)).

Definition two_nodules : Request :=
  (volume, geometry, [[1; 2; 3]; [-200; 1; 1]]%Q).

Definition no_nodules : Request := (volume, geometry, []).

Definition no_nodules_no_geometry : Request := (volume, ∅, []).

Definition geometry_without_spacing : gmap string ndarray :=
  delete "spacing" geometry.

Definition one_nodule_no_spacing : Request :=
  (volume, geometry_without_spacing, [[1; 2; 3]%Q]).

Definition built (mode_arg name : string) : Processor :=
  match __init__ mode_arg false name tt with
  | (Ok p, _, _) => p
  | (Err _, _, _) =>
      mkProcessor 0 0 0 name mode_arg false None None "" None None None
  end.

End Demo.

(** ** Vocabulary for the further properties *)

(** The events that change or run the model object. *)
Definition touches_model (e : Event) : bool :=
  match e with
  | LoadStateDict _ | SetEval _ | NoGradEnter | Forward _ _ | NoGradExit => true
  | _ => false
  end.

(** A model as its constructor left it, apart from the device: no loaded
    weights, training mode. *)
Definition blank_model (m : Model) : Model :=
  mkModel (arch m) (image_size m) (image_depth m) (kind m) (on_cuda m)
          None true.

(** The object with the weights and the evaluation flag of its models
    forgotten. *)
Definition forget (p : Processor) : Processor :=
  mkProcessor (size_px p) (size_mm p) (depth_px p) (model_name p) (mode p)
              (suppress_logs p)
              (option_map blank_model (model_3d p))
              (option_map blank_model (model_2d p))
              (model_root p) (image p) (header p) (coords p).

(** The model attribute that [_process_model] does not read in mode [m]. *)
Definition other_model (m : string) (p : Processor) : option Model :=
  if m =? "3D" then model_2d p else model_3d p.

(** ** Collaborators that fail

    Variants of the concrete world: a resampler that refuses a candidate
    whose first coordinate is negative, a checkpoint that cannot be read,
    a scorer that raises, and a resampler that delivers a single-channel
    or a three-axis patch. *)

Module Faulty.

Definition outside (c : Coord) : bool :=
  match c with
  | x :: _ => negb (Qle_bool 0 x)
  | [] => true
  end.

Definition bad_patch : Env :=
  mkEnv (fun _ c _ _ _ _ _ _ m =>
           if outside c then Err (RuntimeError "candidate outside the volume")
           else Ok (Demo.patch_for m c))
        (clip_lo Demo.env) (clip_hi Demo.env)
        (torch_load Demo.env) (check_state_dict Demo.env)
        (forward Demo.env) (sigmoid Demo.env).

Definition no_checkpoint : Env :=
  mkEnv (dataloader_extract_patch Demo.env)
        (clip_lo Demo.env) (clip_hi Demo.env)
        (fun path => Err (OSError path))
        (check_state_dict Demo.env)
        (forward Demo.env) (sigmoid Demo.env).

Definition bad_forward : Env :=
  mkEnv (dataloader_extract_patch Demo.env)
        (clip_lo Demo.env) (clip_hi Demo.env)
        (torch_load Demo.env) (check_state_dict Demo.env)
        (fun _ _ => Err (RuntimeError "CUDA out of memory"))
        (sigmoid Demo.env).



Definition three_nodules : Request :=
  (Demo.volume, Demo.geometry, [[1; 2; 3]; [-200; 1; 1]; [5; 5; 5]]%Q).

End Faulty.

(** * Properties *)

(** ** The embedding on concrete inputs *)

Example lower_mixed_case : lower "Finetune-HIERA_v2" = "finetune-hiera_v2".
Proof. reflexivity. Qed.

Example contains_is_substring :
  contains "vit" "finetune-vit-b16" = true /\
  contains "vit" "v-i-t" = false /\
  contains "" "x" = true.
Proof. repeat split. Qed.

Example join_relative_name :
  os_path_join "/opt/app/resources/" ["finetune-hiera"; "best_metric_model.pth"]
  = "/opt/app/resources/finetune-hiera/best_metric_model.pth".
Proof. reflexivity. Qed.

Example join_absolute_name :
  os_path_join "/opt/app/resources/" ["/srv/hiera"; "best_metric_model.pth"]
  = "/srv/hiera/best_metric_model.pth".
Proof. reflexivity. Qed.

Example init_default_arguments :
  __init__ "3D" false "finetune-hiera" tt
  = (Ok (Demo.built "3D" "finetune-hiera"), tt,
     [LogInfo "Initializing the deep learning system"; Construct V_Hiera3D]).
Proof. reflexivity. Qed.

Example init_unknown_architecture :
  __init__ "2D" true "resnet" tt
  = (Err (ValueError "Invalid mode and/or model_name."), tt, []).
Proof. reflexivity. Qed.

Example predict_before_define_inputs :
  outcome (predict Demo.env (Demo.built "2D" "finetune-vit"))
  = Err (AttributeError "coords").
Proof. reflexivity. Qed.

Example predict_two_nodules_events :
  map (fun e => match e with
                | LogInfo _ => "log"
                | Construct _ => "construct"
                | ExtractPatch _ _ _ _ _ => "extract"
                | ToCuda _ => "cuda"
                | TorchLoad _ => "load"
                | LoadStateDict _ => "load_state_dict"
                | SetEval _ => "eval"
                | NoGradEnter => "no_grad("
                | Forward _ _ => "forward"
                | NoGradExit => ")"
                end)
      (events (predict Demo.env
                 (submit Demo.two_nodules (Demo.built "3D" "finetune-hiera"))))
  = ["log"; "extract"; "extract"; "cuda"; "load"; "load_state_dict"; "eval";
     "no_grad("; "forward"; ")"].
Proof. vm_compute. reflexivity. Qed.

Example normalize_broadcasts_one_channel :
  normalize ct_mean ct_std (Array [Array [Array [Scalar 0.45]]])
  = Ok (Array [Array [Array [Scalar ((0.45 - 0.45) / 0.225)]];
               Array [Array [Scalar ((0.45 - 0.45) / 0.225)]];
               Array [Array [Scalar ((0.45 - 0.45) / 0.225)]]]).
Proof. reflexivity. Qed.

Example normalize_needs_three_axes :
  normalize ct_mean ct_std (Array [Array [Scalar 0]])
  = Err (ValueError "Expected tensor to be a tensor image of size (..., C, H, W)").
Proof. reflexivity. Qed.

Example permute_swaps_leading_axes :
  permute_1_0_2_3
    (Array [Array [Array [Array [Scalar 1]]; Array [Array [Scalar 2]]];
            Array [Array [Array [Scalar 3]]; Array [Array [Scalar 4]]];
            Array [Array [Array [Scalar 5]]; Array [Array [Scalar 6]]]])
  = Ok (Array [Array [Array [Array [Scalar 1]]; Array [Array [Scalar 3]];
                      Array [Array [Scalar 5]]];
               Array [Array [Array [Scalar 2]]; Array [Array [Scalar 4]];
                      Array [Array [Scalar 6]]]]).
Proof. reflexivity. Qed.

(** ** The monad *)

Lemma bind_run {S A B} (m : M S A) (k : A -> M S B) (s : S) :
  bind m k s =
  match m s with
  | (Ok a, s1, ev1) => (outcome (k a s1), final (k a s1), ev1 ++ events (k a s1))
  | (Err e, s1, ev1) => (Err e, s1, ev1)
  end.
Proof.
  unfold bind, outcome, final, events.
  destruct (m s) as [[[a|e] s1] ev1]; [|reflexivity].
  destruct (k a s1) as [[r s2] ev2]; reflexivity.
Qed.

Lemma bind_ret {S A B} (a : A) (k : A -> M S B) (s : S) :
  bind (ret a) k s = k a s.
Proof. unfold bind, ret. destruct (k a s) as [[? ?] ?]; reflexivity. Qed.

Lemma bind_raise {S A B} (e : exn) (k : A -> M S B) (s : S) :
  bind (raise e) k s = (Err e, s, []).
Proof. reflexivity. Qed.

Lemma bind_get {S B} (k : S -> M S B) (s : S) :
  bind get k s = k s s.
Proof. unfold bind, get. destruct (k s s) as [[? ?] ?]; reflexivity. Qed.

Lemma bind_emit {S B} (e : Event) (k : unit -> M S B) (s : S) :
  bind (emit e) k s =
  (outcome (k tt s), final (k tt s), e :: events (k tt s)).
Proof. unfold bind, emit. destruct (k tt s) as [[? ?] ?]; reflexivity. Qed.

Lemma bind_lift_result {S A B} (r : result A) (k : A -> M S B) (s : S) :
  bind (lift_result r) k s =
  match r with
  | Ok a => k a s
  | Err e => (Err e, s, [])
  end.
Proof.
  unfold bind, lift_result. destruct r as [a|e]; [|reflexivity].
  destruct (k a s) as [[? ?] ?]; reflexivity.
Qed.

Lemma bind_when {S B} (b : bool) (m : M S unit) (k : unit -> M S B) (s : S) :
  bind (when b m) k s = if b then bind m k s else k tt s.
Proof. destruct b; [reflexivity|]. apply bind_ret. Qed.

Lemma bind_getattr {A B} (name : string) (f : Processor -> option A)
      (k : A -> M Processor B) (s : Processor) :
  bind (getattr name f) k s =
  match f s with
  | Some a => k a s
  | None => (Err (AttributeError name), s, [])
  end.
Proof.
  unfold bind, getattr. destruct (f s) as [a|]; [|reflexivity].
  destruct (k a s) as [[? ?] ?]; reflexivity.
Qed.

Lemma bind_getitem {S B} (d : gmap string ndarray) (key : string)
      (k : ndarray -> M S B) (s : S) :
  bind (getitem d key) k s =
  match d !! key with
  | Some v => k v s
  | None => (Err (KeyError key), s, [])
  end.
Proof.
  unfold getitem. destruct (d !! key); [apply bind_ret|apply bind_raise].
Qed.

Lemma bind_truediv {S B} (a b : Z) (k : Q -> M S B) (s : S) :
  bind (truediv a b) k s =
  if (b =? 0)%Z then (Err (ZeroDivisionError "division by zero"), s, [])
  else k (inject_Z a / inject_Z b)%Q s.
Proof.
  unfold truediv. destruct (b =? 0)%Z; [apply bind_raise|apply bind_ret].
Qed.

Lemma bind_set_model {B} (m : string) (model : Model)
      (k : unit -> M Processor B) (s : Processor) :
  bind (set_model m model) k s = k tt (final (set_model m model s)).
Proof.
  unfold bind, set_model, final; cbn [fst snd].
  match goal with |- context [k tt ?x] => destruct (k tt x) as [[? ?] ?] end.
  reflexivity.
Qed.

Create Rewrite HintDb py.

Lemma run_with_no_grad {S A} (body : M S A) (s : S) :
  with_no_grad body s =
  (outcome (body s), final (body s),
   NoGradEnter :: events (body s) ++ [NoGradExit]).
Proof.
  unfold with_no_grad. rewrite bind_emit. reflexivity.
Qed.

#[local] Hint Rewrite @bind_ret @bind_raise @bind_get @bind_emit
  @bind_lift_result @bind_when @bind_getattr @bind_getitem @bind_truediv
  @bind_set_model : py.

(** Case analysis on an innermost scrutinee of the goal. *)
Ltac case_inner :=
  match goal with
  | |- context [match ?x with _ => _ end] =>
      lazymatch x with
      | context [match _ with _ => _ end] => fail
      | _ => destruct x eqn:?
      end
  end.

(** Run the next primitive of a method. *)
Ltac py_run :=
  repeat (autorewrite with py; cbv beta iota;
          cbn [outcome final events fst snd]).

(** ** Model selection at construction *)

Section Selector.

Variables (mode_arg : string) (flag : bool) (name : string).

Let hiera := contains "hiera" (lower name).
Let vit := contains "vit" (lower name).

Lemma init_3d_hiera :
  mode_arg = "3D" -> hiera = true ->
  __init__ mode_arg flag name tt =
  (Ok (mkProcessor 64 50 16 name "3D" flag
                   (Some (cuda (Hiera3D 64 16 "finetuned"))) None
                   "/opt/app/resources/" None None None),
   tt,
   (if flag then [] else [LogInfo "Initializing the deep learning system"])
     ++ [Construct V_Hiera3D]).
Proof.
  subst hiera. intros -> Hh. unfold __init__. rewrite Hh.
  destruct flag; reflexivity.
Qed.

Lemma init_2d_hiera :
  mode_arg = "2D" -> hiera = true ->
  __init__ mode_arg flag name tt =
  (Ok (mkProcessor 64 50 16 name "2D" flag
                   None (Some (cuda (Hiera2D 64 "finetuned")))
                   "/opt/app/resources/" None None None),
   tt,
   (if flag then [] else [LogInfo "Initializing the deep learning system"])
     ++ [Construct V_Hiera2D]).
Proof.
  subst hiera. intros -> Hh. unfold __init__. rewrite Hh.
  destruct flag; reflexivity.
Qed.

Lemma init_2d_vit :
  mode_arg = "2D" -> hiera = false -> vit = true ->
  __init__ mode_arg flag name tt =
  (Ok (mkProcessor 64 50 16 name "2D" flag
                   None (Some (cuda (ViT2D 64 "finetuned")))
                   "/opt/app/resources/" None None None),
   tt,
   (if flag then [] else [LogInfo "Initializing the deep learning system"])
     ++ [Construct V_ViT2D]).
Proof.
  subst hiera vit. intros -> Hh Hv. unfold __init__. rewrite Hh, Hv.
  destruct flag; reflexivity.
Qed.

Lemma init_rejected :
  ~ (mode_arg = "3D" /\ hiera = true) ->
  ~ (mode_arg = "2D" /\ (hiera = true \/ vit = true)) ->
  __init__ mode_arg flag name tt =
  (Err (ValueError "Invalid mode and/or model_name."), tt,
   if flag then [] else [LogInfo "Initializing the deep learning system"]).
Proof.
  subst hiera vit. intros H3 H2. unfold __init__.
  destruct (String.eqb_spec mode_arg "3D") as [E3|E3];
    destruct (String.eqb_spec mode_arg "2D") as [E2|E2];
    destruct (contains "hiera" (lower name)) eqn:Hh;
    destruct (contains "vit" (lower name)) eqn:Hv;
    try solve [exfalso; apply H3; split; [assumption|reflexivity]];
    try solve [exfalso; apply H2; split; [assumption|auto]];
    destruct flag; reflexivity.
Qed.

(** What a successful construction has built. *)
Lemma init_ok_inv (p : Processor) :
  outcome (__init__ mode_arg flag name tt) = Ok p ->
  exists m3 m2,
    p = mkProcessor 64 50 16 name mode_arg flag m3 m2
                    "/opt/app/resources/" None None None /\
    ((mode_arg = "3D" /\ m3 = Some (cuda (Hiera3D 64 16 "finetuned")) /\
      m2 = None) \/
     (mode_arg = "2D" /\ m3 = None /\
      (m2 = Some (cuda (Hiera2D 64 "finetuned")) \/
       m2 = Some (cuda (ViT2D 64 "finetuned"))))).
Proof.
  unfold __init__.
  destruct (String.eqb_spec mode_arg "3D") as [E3|E3];
    destruct (String.eqb_spec mode_arg "2D") as [E2|E2];
    destruct (contains "hiera" (lower name)) eqn:Hh;
    destruct (contains "vit" (lower name)) eqn:Hv;
    destruct flag; cbn; intros H; inversion H; subst;
    do 2 eexists; (split; [reflexivity|]); auto 6.
Qed.

End Selector.

(** ** One patch *)

Section Pipeline.

Variable env : Env.

Lemma extract_patch_state c sh m p :
  final (extract_patch env c sh m p) = p.
Proof.
  unfold extract_patch. py_run.
  repeat (case_inner; py_run; try reflexivity).
Qed.

Lemma extract_patch_events c sh m p :
  events (extract_patch env c sh m p) = [] \/
  events (extract_patch env c sh m p) = [extract_event p sh m c].
Proof.
  unfold extract_patch, extract_event, pitch. py_run.
  repeat (case_inner; py_run; auto).
Qed.

Lemma extract_patch_run c sh m p img h o t sp :
  image p = Some img -> header p = Some h ->
  h !! "origin" = Some o -> h !! "transform" = Some t ->
  h !! "spacing" = Some sp -> size_px p <> 0%Z ->
  extract_patch env c sh m p =
  (match dataloader_extract_patch env img c o t sp sh
           (pitch p, pitch p, pitch p) true m with
   | Ok raw => normalizer env (mode p) raw
   | Err e => Err e
   end, p, [extract_event p sh m c]).
Proof.
  intros Hi Hh Ho Ht Hs Hz.
  unfold extract_patch, extract_event, normalizer, channel_stats, reorder,
    astype_float32, pitch.
  py_run.
  repeat (py_run;
          first [rewrite Hi|rewrite Hh|rewrite Ho|rewrite Ht|rewrite Hs]).
  py_run.
  destruct (Z.eqb_spec (size_px p) 0) as [E|_]; [contradiction|]. py_run.
  repeat (case_inner; py_run; try reflexivity; try congruence).
Qed.

Lemma extract_patch_missing c sh m p img h :
  image p = Some img -> header p = Some h -> header_complete h = false ->
  extract_patch env c sh m p = (Err (KeyError (first_missing h)), p, []).
Proof.
  intros Hi Hh Hc.
  unfold extract_patch, header_complete, first_missing in *. py_run.
  rewrite Hi. py_run. rewrite Hh. py_run.
  destruct (h !! "origin"); [|reflexivity]. py_run. rewrite Hh. py_run.
  destruct (h !! "transform"); [|reflexivity]. py_run. rewrite Hh. py_run.
  destruct (h !! "spacing"); [discriminate|reflexivity].
Qed.

Lemma extract_patch_ok_events c sh m p patch :
  outcome (extract_patch env c sh m p) = Ok patch ->
  events (extract_patch env c sh m p) = [extract_event p sh m c].
Proof.
  unfold extract_patch, extract_event, pitch. py_run.
  repeat (case_inner; py_run; try reflexivity; try discriminate).
Qed.

(** ** The loop over the candidates *)

Lemma for_each_extract sh m p cs :
  let r := for_each (fun c => extract_patch env c sh m) cs p in
  final r = p /\
  (exists k, events r = map (extract_event p sh m) (firstn k cs)) /\
  (forall patches, outcome r = Ok patches ->
     events r = map (extract_event p sh m) cs /\
     Forall2 (fun c patch => outcome (extract_patch env c sh m p) = Ok patch)
             cs patches).
Proof.
  induction cs as [|c cs IH]; cbn zeta.
  - cbn. split; [reflexivity|]. split; [exists 0%nat; reflexivity|].
    intros patches H. inversion H. split; [reflexivity|constructor].
  - cbn [for_each]. rewrite bind_run.
    pose proof (extract_patch_state c sh m p) as Hst.
    pose proof (extract_patch_events c sh m p) as Hev.
    pose proof (extract_patch_ok_events c sh m p) as Hok.
    destruct (extract_patch env c sh m p) as [[[patch|e] s1] ev1] eqn:Hx;
      cbn [outcome final events fst snd] in Hst, Hev, Hok |- *; subst s1.
    + rewrite (Hok patch eq_refl). clear Hev Hok.
      rewrite bind_run.
      destruct IH as (IHs & (k & IHk) & IHok).
      destruct (for_each _ cs p) as [[[ps|e] s2] ev2] eqn:Hf;
        cbn [outcome final events fst snd ret] in IHs, IHk, IHok |- *;
        subst s2.
      * split; [reflexivity|]. destruct (IHok ps eq_refl) as [E F].
        split.
        { exists (S (length cs)). cbn [firstn]. rewrite firstn_all, E.
          cbn. rewrite app_nil_r. reflexivity. }
        intros patches H. inversion H; subst patches.
        rewrite E. split; [cbn; rewrite app_nil_r; reflexivity|].
        constructor; [rewrite Hx; reflexivity|assumption].
      * split; [reflexivity|]. split.
        { exists (S k). cbn. rewrite IHk. reflexivity. }
        intros patches H. discriminate H.
    + split; [reflexivity|]. split.
      * destruct Hev as [-> | ->]; [exists 0%nat|exists 1%nat]; reflexivity.
      * intros patches H. discriminate H.
Qed.

(** ** One call of [_process_model] *)

(** The whole of [_process_model], one outcome per place where it can
    stop. *)
Lemma process_model_run m p :
  _process_model env m p =
  let log := log_events p m in
  let path := checkpoint_path p in
  match chosen_model m p with
  | None =>
      (Err (AttributeError (if m =? "3D" then "model_3d" else "model_2d")),
       p, log)
  | Some model =>
      match coords p with
      | None => (Err (AttributeError "coords"), p, log)
      | Some cs =>
          let loop :=
            for_each (fun c => extract_patch env c (output_shape_for m p) m)
                     cs p in
          match outcome loop with
          | Err e => (Err e, p, log ++ events loop)
          | Ok patches =>
              match np_array patches with
              | Err e => (Err e, p, log ++ events loop)
              | Ok batch =>
                  match torch_load env path with
                  | Err e =>
                      (Err e, p,
                       log ++ events loop ++ [ToCuda batch; TorchLoad path])
                  | Ok ckpt =>
                      match check_state_dict env model ckpt with
                      | Some e =>
                          (Err e, p,
                           log ++ events loop
                               ++ [ToCuda batch; TorchLoad path;
                                   LoadStateDict (arch model)])
                      | None =>
                          let model' := eval (set_state_dict model ckpt) in
                          (forward env model' batch,
                           with_model m model' p,
                           log ++ events loop
                               ++ inference_events path model' batch)
                      end
                  end
              end
          end
      end
  end.
Proof.
  unfold _process_model, chosen_model, log_events, output_shape_for,
    checkpoint_path, logging_info.
  cbv zeta. py_run.
  destruct (suppress_logs p); cbn [negb]; py_run;
    (destruct (m =? "3D") eqn:Em; py_run;
     [destruct (model_3d p) as [model|]|destruct (model_2d p) as [model|]];
     try reflexivity).
  all: py_run; destruct (coords p) as [cs|]; [|reflexivity].
  all: rewrite bind_run.
  all: match goal with
       | |- context [for_each ?f ?cs0 ?p0] =>
           pose proof (for_each_extract
                         (if m =? "3D"
                          then [depth_px p; size_px p; size_px p]
                          else [1%Z; size_px p; size_px p]) m p cs0) as Hloop;
           rewrite Em in Hloop; cbv zeta in Hloop;
           destruct Hloop as (Hst & _ & _);
           destruct (for_each f cs0 p0) as [[[patches|e] s1] ev1]
       end; cbn [outcome final events fst snd] in Hst |- *; subst s1;
       [|rewrite ?app_nil_r; reflexivity].
  all: py_run; destruct (np_array patches) as [batch|e];
       [|rewrite ?app_nil_r; reflexivity].
  all: py_run; destruct (torch_load env _) as [ckpt|e];
       [|rewrite ?app_nil_r; reflexivity].
  all: py_run; destruct (check_state_dict env model ckpt) as [e|];
       py_run; [rewrite ?app_nil_r; reflexivity|].
  all: rewrite bind_run, run_with_no_grad; py_run.
  all: unfold with_model, set_model, final; cbn [fst snd]; rewrite ?Em.
  all: destruct (forward env _ batch); cbn; rewrite ?app_nil_r.
  all: reflexivity.
Qed.

Lemma np_array_ok xs batch : np_array xs = Ok batch -> batch = Array xs.
Proof.
  unfold np_array. destruct xs as [|x rest]; [congruence|].
  destruct (forallb _ rest); congruence.
Qed.

(** A call that returns has gone through every stage. *)
Lemma process_model_ok m p logits :
  outcome (_process_model env m p) = Ok logits ->
  exists model cs patches ckpt,
    chosen_model m p = Some model /\
    coords p = Some cs /\
    Forall2 (fun c patch =>
               outcome (extract_patch env c (output_shape_for m p) m p)
               = Ok patch) cs patches /\
    np_array patches = Ok (Array patches) /\
    torch_load env (checkpoint_path p) = Ok ckpt /\
    check_state_dict env model ckpt = None /\
    forward env (eval (set_state_dict model ckpt)) (Array patches)
    = Ok logits /\
    events (_process_model env m p)
    = log_events p m
        ++ map (extract_event p (output_shape_for m p) m) cs
        ++ inference_events (checkpoint_path p)
             (eval (set_state_dict model ckpt)) (Array patches) /\
    final (_process_model env m p)
    = with_model m (eval (set_state_dict model ckpt)) p.
Proof.
  rewrite process_model_run. cbv zeta.
  destruct (chosen_model m p) as [model|]; [|discriminate].
  destruct (coords p) as [cs|]; [|discriminate].
  destruct (for_each_extract (output_shape_for m p) m p cs) as (_ & _ & Hok).
  destruct (outcome (for_each _ cs p)) as [patches|e]; [|discriminate].
  destruct (Hok patches eq_refl) as [Hev HF]. rewrite Hev.
  destruct (np_array patches) as [batch|e] eqn:Hb; [|discriminate].
  pose proof (np_array_ok _ _ Hb) as ->.
  destruct (torch_load env (checkpoint_path p)) as [ckpt|e]; [|discriminate].
  destruct (check_state_dict env model ckpt) eqn:Hc; [discriminate|].
  cbn [outcome final events fst snd]. intros Hfw.
  exists model, cs, patches, ckpt. repeat (split; [assumption || reflexivity|]).
  reflexivity.
Qed.

(** Every call, returning or not: the advisory log line, then resampler
    calls for the first candidates, then an initial part of the inference
    sequence. *)
Lemma process_model_trace m p :
  exists k cs tail batch model,
    (coords p = Some cs \/ (coords p = None /\ cs = [])) /\
    events (_process_model env m p)
    = log_events p m
        ++ map (extract_event p (output_shape_for m p) m) (firstn k cs)
        ++ tail /\
    tail `prefix_of` inference_events (checkpoint_path p) model batch.
Proof.
  rewrite process_model_run. cbv zeta.
  assert (Hnil : forall l : list Event, [] `prefix_of` l)
    by (intros; apply prefix_nil).
  pose (m0 := mkModel V_Hiera3D 0 None "" false None false).
  destruct (chosen_model m p) as [model|].
  2:{ exists 0%nat, (default [] (coords p)), [], (Array []), m0.
      cbn [firstn map events snd]. rewrite !app_nil_r.
      destruct (coords p); auto. }
  destruct (coords p) as [cs|].
  2:{ exists 0%nat, [], [], (Array []), m0.
      cbn [firstn map events snd]. rewrite !app_nil_r. auto. }
  destruct (for_each_extract (output_shape_for m p) m p cs)
    as (_ & (k & Hk) & Hok).
  destruct (outcome (for_each _ cs p)) as [patches|e].
  2:{ exists k, cs, [], (Array []), m0. cbn [events snd].
      rewrite Hk, !app_nil_r. auto. }
  destruct (Hok patches eq_refl) as [Hev _]. rewrite Hev.
  destruct (np_array patches) as [batch|e].
  2:{ exists (length cs), cs, [], (Array []), m0. cbn [events snd].
      rewrite firstn_all, !app_nil_r. auto. }
  destruct (torch_load env (checkpoint_path p)) as [ckpt|e].
  2:{ exists (length cs), cs, [ToCuda batch; TorchLoad (checkpoint_path p)],
        batch, model.
      cbn [events snd]. rewrite firstn_all. split; [auto|]. split; [reflexivity|].
      eexists; reflexivity. }
  destruct (check_state_dict env model ckpt).
  { exists (length cs), cs,
      [ToCuda batch; TorchLoad (checkpoint_path p); LoadStateDict (arch model)],
      batch, model.
    cbn [events snd]. rewrite firstn_all. split; [auto|]. split; [reflexivity|].
    eexists; reflexivity. }
  exists (length cs), cs,
    (inference_events (checkpoint_path p) (eval (set_state_dict model ckpt))
                      batch),
    batch, (eval (set_state_dict model ckpt)).
  cbn [events snd]. rewrite firstn_all. split; [auto|]. split; reflexivity.
Qed.

(** The object after a call: unchanged, or with the chosen model reloaded
    and in evaluation mode. *)
Lemma process_model_final m p :
  final (_process_model env m p) = p \/
  exists model ckpt,
    chosen_model m p = Some model /\
    final (_process_model env m p)
    = with_model m (eval (set_state_dict model ckpt)) p.
Proof.
  rewrite process_model_run. cbv zeta.
  destruct (chosen_model m p) as [model|]; [|auto].
  destruct (coords p) as [cs|]; [|auto].
  destruct (outcome (for_each _ cs p)) as [patches|e]; [|auto].
  destruct (np_array patches) as [batch|e]; [|auto].
  destruct (torch_load env (checkpoint_path p)) as [ckpt|e]; [|auto].
  destruct (check_state_dict env model ckpt); [auto|].
  right. exists model, ckpt. auto.
Qed.

Lemma filter_call_events (f : Event -> bool) p sh m cs tail :
  (forall msg, f (LogInfo msg) = false) ->
  (forall c sh' vs w m', f (ExtractPatch c sh' vs w m') = false) ->
  List.filter f (log_events p m ++ map (extract_event p sh m) cs ++ tail)
  = List.filter f tail.
Proof.
  intros Hlog Hex. rewrite !List.filter_app.
  assert (List.filter f (log_events p m) = []) as ->
    by (unfold log_events; destruct (suppress_logs p); cbn;
        rewrite ?Hlog; reflexivity).
  assert (List.filter f (map (extract_event p sh m) cs) = []) as ->.
  { induction cs as [|c cs IH]; [reflexivity|].
    cbn. unfold extract_event at 1. rewrite Hex. exact IH. }
  reflexivity.
Qed.

Lemma predict_run p :
  predict env p =
  let r := _process_model env (mode p) p in
  (match outcome r with
   | Ok logits => Ok (tmap (sigmoid env) logits, logits)
   | Err e => Err e
   end, final r, events r).
Proof.
  unfold predict. rewrite bind_get, bind_run.
  destruct (_process_model env (mode p) p) as [[[l|e] s1] ev1];
    cbn; rewrite ?app_nil_r; reflexivity.
Qed.

End Pipeline.

(** ** The object over its lifetime *)

Section Lifetime.

Variable env : Env.
Variables mode_arg name : string.

Lemma constructed_init flag p :
  outcome (__init__ mode_arg flag name tt) = Ok p ->
  constructed mode_arg name p.
Proof.
  intros H. destruct (init_ok_inv _ _ _ _ H) as (m3 & m2 & -> & Hm).
  unfold constructed, chosen_model. cbn.
  destruct Hm as [(-> & -> & ->) | (-> & -> & [-> | ->])]; cbn;
    repeat split; eauto.
Qed.

Lemma constructed_submit rq p :
  constructed mode_arg name p -> constructed mode_arg name (submit rq p).
Proof. unfold constructed, chosen_model, submit. cbn. tauto. Qed.

Lemma constructed_with_model model p :
  constructed mode_arg name p -> on_cuda model = true ->
  constructed mode_arg name (with_model mode_arg model p).
Proof.
  unfold constructed, chosen_model, with_model, set_model, final.
  cbn [fst snd].
  intros (H1 & H2 & H3 & H4 & H5 & H6 & H7 & _) Hc.
  destruct (mode_arg =? "3D") eqn:E; cbn; repeat split; eauto.
Qed.

Lemma constructed_predict p :
  constructed mode_arg name p ->
  constructed mode_arg name (final (predict env p)).
Proof.
  intros H. rewrite predict_run. cbn [final fst snd].
  pose proof H as (_ & _ & _ & Hm & _ & _ & _ & model & Hc & Hcu).
  rewrite Hm.
  destruct (process_model_final env mode_arg p)
    as [-> | (model' & ckpt & Hc' & ->)]; [assumption|].
  apply constructed_with_model; [assumption|].
  rewrite Hc in Hc'. inversion Hc'; subst. exact Hcu.
Qed.

Lemma constructed_serve history :
  forall p, constructed mode_arg name p ->
            constructed mode_arg name (serve env p history).
Proof.
  induction history as [|rq rest IH]; intros p H; [exact H|].
  cbn [serve]. apply IH, constructed_predict, constructed_submit, H.
Qed.

(** The resampler calls of a request on a constructed object. *)
Lemma extraction_calls flag p history rq :
  outcome (__init__ mode_arg flag name tt) = Ok p ->
  let q := submit rq (serve env p history) in
  let call c :=
    ExtractPatch c (if mode_arg =? "3D" then [16; 64; 64]%Z
                    else [1; 64; 64]%Z)
                 (50 # 64, 50 # 64, 50 # 64)%Q true mode_arg in
  (exists k, List.filter is_extract (events (predict env q))
             = map call (firstn k (snd rq))) /\
  (forall r, outcome (predict env q) = Ok r ->
             List.filter is_extract (events (predict env q)) = map call (snd rq)).
Proof.
  intros Hinit q call.
  assert (Hq : constructed mode_arg name q)
    by (apply constructed_submit, constructed_serve,
          (constructed_init _ _ Hinit)).
  destruct Hq as (Hpx & Hmm & Hd & Hm & _).
  assert (Hcall : extract_event q (output_shape_for mode_arg q) mode_arg
                  = call).
  { unfold extract_event, output_shape_for, pitch, call.
    rewrite Hpx, Hmm, Hd. reflexivity. }
  assert (Hcs : coords q = Some (snd rq)) by reflexivity.
  assert (Hfilter : forall cs tail model batch,
             tail `prefix_of` inference_events (checkpoint_path q) model batch ->
             List.filter is_extract (log_events q mode_arg ++ map call cs ++ tail)
             = map call cs).
  { intros cs tail model batch [rest Hrest].
    rewrite !List.filter_app.
    assert (List.filter is_extract (log_events q mode_arg) = []) as ->
      by (unfold log_events; destruct (suppress_logs q); reflexivity).
    assert (List.filter is_extract tail = []) as ->.
    { assert (Hall : List.filter is_extract
                       (inference_events (checkpoint_path q) model batch) = [])
        by reflexivity.
      rewrite Hrest, List.filter_app in Hall.
      apply app_eq_nil in Hall. tauto. }
    cbn. rewrite app_nil_r.
    induction cs as [|c cs IH]; [reflexivity|]. cbn. f_equal. exact IH. }
  rewrite predict_run. cbn [outcome events fst snd]. rewrite Hm. split.
  - destruct (process_model_trace env mode_arg q)
      as (k & cs & tail & batch & model & Hc & -> & Hp).
    rewrite Hcall. exists k.
    destruct Hc as [Hc | [Hc _]]; rewrite Hcs in Hc; [|discriminate].
    inversion Hc; subst cs. eapply Hfilter, Hp.
  - intros r Hr.
    destruct (outcome (_process_model env mode_arg q)) as [logits|e] eqn:Hl;
      [|discriminate].
    destruct (process_model_ok env _ _ _ Hl)
      as (model & cs & patches & ckpt & _ & Hc & _ & _ & _ & _ & _ & -> & _).
    rewrite Hcs in Hc. inversion Hc; subst cs. rewrite Hcall.
    eapply Hfilter. exists []. rewrite app_nil_r. reflexivity.
Qed.

End Lifetime.

(** ** The [suppress_logs] attribute *)

Section Flag.

Variable env : Env.

Lemma nolog_app a b : nolog (a ++ b) = nolog a ++ nolog b.
Proof. apply List.filter_app. Qed.

Lemma nolog_log_events p m : nolog (log_events p m) = [].
Proof. unfold log_events. destruct (suppress_logs p); reflexivity. Qed.

Lemma extract_patch_flag b c sh m p :
  extract_patch env c sh m (set_flag b p) =
  (outcome (extract_patch env c sh m p), set_flag b p,
   events (extract_patch env c sh m p)).
Proof.
  unfold extract_patch. py_run.
  cbn [set_flag image header size_mm size_px mode].
  repeat (case_inner; py_run;
          cbn [set_flag image header size_mm size_px mode];
          try reflexivity).
Qed.

Lemma for_each_flag b sh m cs p :
  for_each (fun c => extract_patch env c sh m) cs (set_flag b p) =
  (outcome (for_each (fun c => extract_patch env c sh m) cs p),
   set_flag b p,
   events (for_each (fun c => extract_patch env c sh m) cs p)).
Proof.
  induction cs as [|c cs IH]; [reflexivity|].
  cbn [for_each]. rewrite !bind_run, extract_patch_flag.
  pose proof (extract_patch_state env c sh m p) as Hst.
  destruct (extract_patch env c sh m p) as [[[patch|e] s1] ev1];
    cbn [outcome final events fst snd] in Hst |- *; subst s1;
    [|reflexivity].
  rewrite !bind_run, IH.
  destruct (for_each_extract env sh m p cs) as (Hst & _ & _).
  destruct (for_each _ cs p) as [[[ps|e] s2] ev2];
    cbn [outcome final events fst snd] in Hst |- *; subst s2; reflexivity.
Qed.

Lemma process_model_flag b m p :
  outcome (_process_model env m (set_flag b p))
  = outcome (_process_model env m p) /\
  final (_process_model env m (set_flag b p))
  = set_flag b (final (_process_model env m p)) /\
  nolog (events (_process_model env m (set_flag b p)))
  = nolog (events (_process_model env m p)).
Proof.
  rewrite !process_model_run. cbv zeta.
  change (chosen_model m (set_flag b p)) with (chosen_model m p).
  change (coords (set_flag b p)) with (coords p).
  change (output_shape_for m (set_flag b p)) with (output_shape_for m p).
  change (checkpoint_path (set_flag b p)) with (checkpoint_path p).
  destruct (chosen_model m p) as [model|];
    [|cbn [outcome final events fst snd]; rewrite !nolog_log_events; auto].
  destruct (coords p) as [cs|];
    [|cbn [outcome final events fst snd]; rewrite !nolog_log_events; auto].
  rewrite for_each_flag. cbn [outcome events fst snd].
  assert (Hwm : forall model',
             with_model m model' (set_flag b p)
             = set_flag b (with_model m model' p)).
  { intros model'. unfold with_model, set_model, final. cbn [fst snd].
    destruct (m =? "3D"); reflexivity. }
  repeat (case_inner; cbn [outcome final events fst snd];
          rewrite ?nolog_app, ?nolog_log_events, ?Hwm; auto).
Qed.

Lemma predict_flag b p :
  outcome (predict env (set_flag b p)) = outcome (predict env p) /\
  final (predict env (set_flag b p)) = set_flag b (final (predict env p)) /\
  nolog (events (predict env (set_flag b p)))
  = nolog (events (predict env p)).
Proof.
  rewrite !predict_run. cbn [outcome final events fst snd].
  change (mode (set_flag b p)) with (mode p).
  destruct (process_model_flag b (mode p) p) as (-> & -> & ->). auto.
Qed.

Lemma serve_flag b history :
  forall p, serve env (set_flag b p) history
            = set_flag b (serve env p history).
Proof.
  induction history as [|rq rest IH]; intros p; [reflexivity|].
  cbn [serve].
  change (submit rq (set_flag b p)) with (set_flag b (submit rq p)).
  destruct (predict_flag b (submit rq p)) as (_ & -> & _). apply IH.
Qed.

Lemma init_flag mode_arg name b :
  __init__ mode_arg b name tt =
  (match outcome (__init__ mode_arg false name tt) with
   | Ok p => Ok (set_flag b p)
   | Err e => Err e
   end, tt,
   (if b then [] else [LogInfo "Initializing the deep learning system"])
     ++ nolog (events (__init__ mode_arg false name tt))).
Proof.
  unfold __init__.
  destruct ((mode_arg =? "3D") && contains "hiera" (lower name));
    [destruct b; reflexivity|].
  destruct ((mode_arg =? "2D") && contains "hiera" (lower name));
    [destruct b; reflexivity|].
  destruct ((mode_arg =? "2D") && contains "vit" (lower name));
    destruct b; reflexivity.
Qed.

End Flag.

(** ** Paths *)

Lemma endswith_sep_app a b :
  b <> "" -> endswith_sep (a +:+ b) = endswith_sep b.
Proof.
  intros Hb. induction a as [|c a IH]; [reflexivity|].
  change (String c a +:+ b) with (String c (a +:+ b)).
  change (endswith_sep (String c (a +:+ b)))
    with (match a +:+ b with
          | "" => Ascii.eqb c "/"
          | String _ _ => endswith_sep (a +:+ b)
          end).
  destruct (a +:+ b) eqn:E; [|exact IH].
  destruct a; [cbn in E; contradiction|discriminate E].
Qed.

Lemma checkpoint_path_relative name :
  name <> "" -> startswith "/" name = false -> endswith_sep name = false ->
  os_path_join "/opt/app/resources/" [name; "best_metric_model.pth"]
  = ("/opt/app/resources/" +:+ name) +:+ "/best_metric_model.pth".
Proof.
  intros Hn Hs He. unfold os_path_join. cbn [fold_left].
  assert (H1 : join_step "/opt/app/resources/" name
               = "/opt/app/resources/" +:+ name).
  { unfold join_step. rewrite Hs. reflexivity. }
  rewrite H1. unfold join_step at 1.
  rewrite (endswith_sep_app _ _ Hn), He. reflexivity.
Qed.

Lemma checkpoint_path_absolute name :
  startswith "/" name = true -> endswith_sep name = false ->
  os_path_join "/opt/app/resources/" [name; "best_metric_model.pth"]
  = name +:+ "/best_metric_model.pth".
Proof.
  intros Hs He. unfold os_path_join. cbn [fold_left].
  assert (H1 : join_step "/opt/app/resources/" name = name)
    by (unfold join_step; rewrite Hs; reflexivity).
  rewrite H1. unfold join_step. rewrite He.
  destruct name as [|a name']; [discriminate Hs|]. reflexivity.
Qed.

Lemma nonempty_name flag mode_arg name p :
  outcome (__init__ mode_arg flag name tt) = Ok p -> name <> "".
Proof.
  intros H ->. unfold __init__ in H. cbn in H.
  rewrite !andb_false_r in H. destruct flag; discriminate H.
Qed.

(** ** Arrays *)

Lemma ndarray_forall_ind (P : ndarray -> Prop) :
  (forall x, P (Scalar x)) ->
  (forall xs, Forall P xs -> P (Array xs)) ->
  forall t, P t.
Proof.
  intros Hs Ha.
  fix IH 1. intros [x|xs].
  - apply Hs.
  - apply Ha. induction xs as [|y ys IHys]; constructor.
    + apply IH.
    + apply IHys.
Qed.

Lemma shape_tmap f t : shape (tmap f t) = shape t.
Proof.
  induction t as [x|xs IH] using ndarray_forall_ind; [reflexivity|].
  cbn. rewrite length_map. f_equal.
  destruct xs as [|y ys]; [reflexivity|].
  cbn. inversion IH; subst. assumption.
Qed.

Lemma len_tmap f t : len (tmap f t) = len t.
Proof. destruct t; cbn; [reflexivity|apply length_map]. Qed.

Lemma at_index_tmap f t idx :
  at_index (tmap f t) idx = option_map (tmap f) (at_index t idx).
Proof.
  revert t. induction idx as [|i idx IH]; intros t; [reflexivity|].
  cbn. destruct t as [x|xs]; cbn; [reflexivity|].
  rewrite nth_error_map. destruct (nth_error xs i); cbn; [apply IH|reflexivity].
Qed.

(** ** The normaliser on rectangular patches *)

Lemma at_index_app t i1 i2 :
  at_index t (i1 ++ i2) =
  match at_index t i1 with
  | Some u => at_index u i2
  | None => None
  end.
Proof.
  revert t. induction i1 as [|i i1 IH]; intros t; [reflexivity|].
  cbn. destruct (item t i); [apply IH|reflexivity].
Qed.

Lemma has_shape_cons n sh t :
  has_shape (n :: sh) t = true ->
  exists xs, t = Array xs /\ length xs = n /\
             Forall (fun x => has_shape sh x = true) xs.
Proof.
  cbn. destruct t as [x|xs]; [discriminate|].
  intros H. apply andb_true_iff in H. destruct H as [Hl Hf].
  exists xs. split; [reflexivity|]. split; [apply Nat.eqb_eq, Hl|].
  apply Forall_forall. intros x Hx.
  rewrite forallb_forall in Hf. apply Hf. apply list_elem_of_In, Hx.
Qed.

Lemma has_shape_intro n sh xs :
  length xs = n -> Forall (fun x => has_shape sh x = true) xs ->
  has_shape (n :: sh) (Array xs) = true.
Proof.
  intros Hl Hf. cbn. apply andb_true_iff. split; [apply Nat.eqb_eq, Hl|].
  apply forallb_forall. intros x Hx.
  rewrite Forall_forall in Hf. apply Hf, list_elem_of_In, Hx.
Qed.

Lemma has_shape_tmap f sh :
  forall t, has_shape sh t = true -> has_shape sh (tmap f t) = true.
Proof.
  induction sh as [|n sh IH]; intros t H.
  - destruct t; [reflexivity|discriminate].
  - destruct (has_shape_cons _ _ _ H) as (xs & -> & Hl & Hf).
    cbn [tmap]. apply has_shape_intro; [rewrite length_map; exact Hl|].
    apply Forall_map. eapply Forall_impl; [exact Hf|].
    intros x Hx. apply IH, Hx.
Qed.

(** The shape read off the leading items is the shape of a rectangular
    array as soon as no axis but the last is empty. *)
Lemma shape_of_has_shape sh :
  forall t, has_shape sh t = true ->
            Forall (fun n => 0 < n)%nat (removelast sh) ->
            shape t = sh.
Proof.
  induction sh as [|n sh IH]; intros t H Hpos.
  - destruct t; [reflexivity|discriminate].
  - destruct (has_shape_cons _ _ _ H) as (xs & -> & Hl & Hf).
    cbn [shape]. rewrite Hl. f_equal.
    destruct sh as [|n' sh'].
    + destruct xs as [|x xs']; [reflexivity|].
      inversion Hf; subst. destruct x; [reflexivity|discriminate].
    + cbn [removelast] in Hpos. inversion Hpos as [|? ? Hn Hrest]; subst.
      destruct xs as [|x xs']; [cbn in Hn; lia|].
      inversion Hf; subst. apply IH; assumption.
Qed.

Lemma map_result_ok {A B} (f : A -> result B) (g : A -> B) xs :
  Forall (fun x => f x = Ok (g x)) xs ->
  map_result f xs = Ok (map g xs).
Proof.
  induction 1 as [|x xs Hx _ IH]; [reflexivity|].
  cbn. rewrite Hx, IH. reflexivity.
Qed.

Section ThreeChannels.

Variables m0 m1 m2 s0 s1 s2 : Q.

Let mean := [m0; m1; m2].
Let std := [s0; s1; s2].

#[local] Abbreviation nimg := (norm_image m0 m1 m2 s0 s1 s2).

Lemma three_channels sh t :
  has_shape (3%nat :: sh) t = true ->
  exists c0 c1 c2,
    t = Array [c0; c1; c2] /\ has_shape sh c0 = true /\
    has_shape sh c1 = true /\ has_shape sh c2 = true.
Proof.
  intros H. destruct (has_shape_cons _ _ _ H) as (xs & -> & Hl & Hf).
  destruct xs as [|c0 [|c1 [|c2 [|? ?]]]]; try discriminate Hl.
  inversion Hf as [|? ? H0 Hf1]; subst.
  inversion Hf1 as [|? ? H1 Hf2]; subst.
  inversion Hf2 as [|? ? H2 _]; subst.
  exists c0, c1, c2. auto.
Qed.

Lemma normalize_under_image sh t :
  has_shape (3%nat :: sh) t = true ->
  normalize_under 0 mean std t = Ok (nimg t).
Proof.
  intros H. destruct (three_channels _ _ H) as (c0 & c1 & c2 & -> & _).
  reflexivity.
Qed.

Lemma has_shape_norm_image sh t :
  has_shape (3%nat :: sh) t = true ->
  has_shape (3%nat :: sh) (nimg t) = true.
Proof.
  intros H.
  destruct (three_channels _ _ H) as (c0 & c1 & c2 & -> & H0 & H1 & H2).
  cbn [norm_image]. apply has_shape_intro; [reflexivity|].
  repeat constructor; apply has_shape_tmap; assumption.
Qed.

Lemma item_norm_image sh t c u :
  has_shape (3%nat :: sh) t = true ->
  item t c = Some u ->
  item (nimg t) c
  = Some (tmap (norm_sample (nth c mean 0%Q) (nth c std 0%Q)) u).
Proof.
  intros H.
  destruct (three_channels _ _ H) as (c0 & c1 & c2 & -> & _).
  destruct c as [|[|[|c]]]; cbn; intros Hu; inversion Hu; subst;
    try reflexivity.
  destruct c; discriminate.
Qed.

(** [normalize] on one image of shape (3, H, W). *)
Lemma normalize_image h w t :
  has_shape [3; h; w]%nat t = true -> (0 < h)%nat ->
  normalize mean std t = Ok (nimg t).
Proof.
  intros H Hh. unfold normalize, ndim.
  rewrite (shape_of_has_shape _ _ H) by (repeat constructor; lia).
  cbn. apply (normalize_under_image _ _ H).
Qed.

(** [normalize] on a stack of shape (D, 3, H, W): every slice is an
    image. *)
Lemma normalize_stack d h w t :
  has_shape [d; 3; h; w]%nat t = true -> (0 < d)%nat -> (0 < h)%nat ->
  normalize mean std t = Ok (Array (map nimg (children t))).
Proof.
  intros H Hd Hh. unfold normalize, ndim.
  rewrite (shape_of_has_shape _ _ H) by (repeat constructor; lia).
  destruct (has_shape_cons _ _ _ H) as (xs & -> & Hl & Hf).
  cbn. rewrite (map_result_ok _ nimg); [reflexivity|].
  eapply Forall_impl; [exact Hf|].
  intros x Hx. apply (normalize_under_image _ _ Hx).
Qed.

End ThreeChannels.

Section OneChannel.

Variables m0 m1 m2 s0 s1 s2 : Q.

Let mean := [m0; m1; m2].
Let std := [s0; s1; s2].

#[local] Abbreviation bimg := (broadcast_image m0 m1 m2 s0 s1 s2).

Lemma single_channel sh t :
  has_shape (1%nat :: sh) t = true ->
  exists c0, t = Array [c0] /\ has_shape sh c0 = true.
Proof.
  intros H. destruct (has_shape_cons _ _ _ H) as (xs & -> & Hl & Hf).
  destruct xs as [|c0 [|? ?]]; try discriminate Hl.
  inversion Hf as [|? ? H0 _]; subst.
  exists c0. auto.
Qed.

Lemma normalize_under_broadcast sh t :
  has_shape (1%nat :: sh) t = true ->
  normalize_under 0 mean std t = Ok (bimg t).
Proof.
  intros H. destruct (single_channel _ _ H) as (c0 & -> & _).
  reflexivity.
Qed.

Lemma has_shape_broadcast_image sh t :
  has_shape (1%nat :: sh) t = true ->
  has_shape (3%nat :: sh) (bimg t) = true.
Proof.
  intros H. destruct (single_channel _ _ H) as (c0 & -> & H0).
  cbn [broadcast_image]. apply has_shape_intro; [reflexivity|].
  repeat constructor; apply has_shape_tmap; assumption.
Qed.

Lemma item_broadcast_image sh t c u :
  has_shape (1%nat :: sh) t = true -> (c < 3)%nat ->
  item t 0 = Some u ->
  item (bimg t) c
  = Some (tmap (norm_sample (nth c mean 0%Q) (nth c std 0%Q)) u).
Proof.
  intros H Hc.
  destruct (single_channel _ _ H) as (c0 & -> & _).
  cbn [item nth_error]. intros Hu; inversion Hu; subst.
  destruct c as [|[|[|c]]]; [reflexivity..|lia].
Qed.

(** [normalize] on one image of shape (1, H, W). *)
Lemma normalize_broadcast_image h w t :
  has_shape [1; h; w]%nat t = true -> (0 < h)%nat ->
  normalize mean std t = Ok (bimg t).
Proof.
  intros H Hh. unfold normalize, ndim.
  rewrite (shape_of_has_shape _ _ H) by (repeat constructor; lia).
  cbn. apply (normalize_under_broadcast _ _ H).
Qed.

(** [normalize] on a stack of shape (D, 1, H, W). *)
Lemma normalize_broadcast_stack d h w t :
  has_shape [d; 1; h; w]%nat t = true -> (0 < d)%nat -> (0 < h)%nat ->
  normalize mean std t = Ok (Array (map bimg (children t))).
Proof.
  intros H Hd Hh. unfold normalize, ndim.
  rewrite (shape_of_has_shape _ _ H) by (repeat constructor; lia).
  destruct (has_shape_cons _ _ _ H) as (xs & -> & Hl & Hf).
  cbn. rewrite (map_result_ok _ bimg); [reflexivity|].
  eapply Forall_impl; [exact Hf|].
  intros x Hx. apply (normalize_under_broadcast _ _ Hx).
Qed.

End OneChannel.

(** Another number of channels than one or the number of statistics is
    refused. *)
Lemma normalize_channels_mismatch mean std chans :
  (1 < length chans)%nat -> length chans <> length mean ->
  exists msg, normalize_channels mean std chans = Err (RuntimeError msg).
Proof.
  intros H1 H2. unfold normalize_channels.
  destruct chans as [|a [|b l]]; cbn in H1; try lia.
  destruct (Nat.eqb_spec (length (a :: b :: l)) (length mean));
    [contradiction|].
  eexists. reflexivity.
Qed.

Lemma normalize_under_mismatch mean std n sh t :
  has_shape (n :: sh) t = true -> (1 < n)%nat -> n <> length mean ->
  exists msg, normalize_under 0 mean std t = Err (RuntimeError msg).
Proof.
  intros H Hn Hne.
  destruct (has_shape_cons _ _ _ H) as (xs & -> & Hl & _).
  cbn [normalize_under].
  destruct (normalize_channels_mismatch mean std xs) as [msg ->];
    [lia|lia|].
  exists msg. reflexivity.
Qed.

Lemma normalize_image_mismatch mean std n h w t :
  has_shape [n; h; w]%nat t = true ->
  (0 < h)%nat -> (1 < n)%nat -> n <> length mean ->
  exists msg, normalize mean std t = Err (RuntimeError msg).
Proof.
  intros H Hh Hn Hne. unfold normalize, ndim.
  rewrite (shape_of_has_shape _ _ H) by (repeat constructor; lia).
  cbn [length Nat.ltb Nat.leb Nat.sub].
  apply (normalize_under_mismatch _ _ _ _ _ H Hn Hne).
Qed.

Lemma normalize_stack_mismatch mean std d n h w t :
  has_shape [d; n; h; w]%nat t = true ->
  (0 < d)%nat -> (0 < h)%nat -> (1 < n)%nat -> n <> length mean ->
  exists msg, normalize mean std t = Err (RuntimeError msg).
Proof.
  intros H Hd Hh Hn Hne. unfold normalize, ndim.
  rewrite (shape_of_has_shape _ _ H) by (repeat constructor; lia).
  cbn [length Nat.ltb Nat.leb Nat.sub].
  destruct (has_shape_cons _ _ _ H) as (xs & -> & Hl & Hf).
  destruct xs as [|x xs]; [cbn in Hl; lia|].
  inversion Hf as [|? ? Hx _]; subst.
  destruct (has_shape_cons _ _ _ Hx) as (chans & -> & Hc & _).
  destruct (normalize_channels_mismatch mean std chans) as [msg E];
    [lia|lia|].
  exists msg. cbn [normalize_under map_result]. rewrite E. reflexivity.
Qed.

Lemma clip_sample_range env x :
  (clip_lo env < clip_hi env)%Q ->
  (0 <= clip_sample env x)%Q /\ (clip_sample env x <= 1)%Q.
Proof.
  intros Hlt. unfold clip_sample, clamp.
  set (lo := clip_lo env) in *. set (hi := clip_hi env) in *.
  assert (Hpos : (0 < hi - lo)%Q) by lra.
  assert (Hin : forall y, (lo <= y)%Q -> (y <= hi)%Q ->
                          (0 <= (y - lo) / (hi - lo))%Q /\
                          ((y - lo) / (hi - lo) <= 1)%Q).
  { intros y H1 H2. split.
    - apply Qle_shift_div_l; [exact Hpos|lra].
    - apply Qle_shift_div_r; [exact Hpos|lra]. }
  destruct (Qle_bool x lo) eqn:E1.
  - apply Hin; lra.
  - destruct (Qle_bool hi x) eqn:E2.
    + apply Hin; lra.
    + assert (~ (x <= lo)%Q) by (rewrite <- Qle_bool_iff, E1; discriminate).
      assert (~ (hi <= x)%Q) by (rewrite <- Qle_bool_iff, E2; discriminate).
      apply Hin; lra.
Qed.

Lemma clip_sample_values env x :
  (clip_lo env < clip_hi env)%Q ->
  ((x <= clip_lo env)%Q -> clip_sample env x == 0) /\
  ((clip_hi env <= x)%Q -> clip_sample env x == 1) /\
  ((clip_lo env <= x)%Q -> (x <= clip_hi env)%Q ->
   clip_sample env x == (x - clip_lo env) / (clip_hi env - clip_lo env)).
Proof.
  intros Hlt. unfold clip_sample, clamp.
  set (lo := clip_lo env) in *. set (hi := clip_hi env) in *.
  assert (Hnz : ~ hi - lo == 0) by lra.
  destruct (Qle_bool x lo) eqn:E1.
  - apply Qle_bool_iff in E1.
    repeat split; intros; field_simplify_eq; lra.
  - assert (~ (x <= lo)%Q) by (rewrite <- Qle_bool_iff, E1; discriminate).
    destruct (Qle_bool hi x) eqn:E2.
    + apply Qle_bool_iff in E2.
      repeat split; intros; field_simplify_eq; lra.
    + assert (~ (hi <= x)%Q) by (rewrite <- Qle_bool_iff, E2; discriminate).
      repeat split; intros; try lra; reflexivity.
Qed.

(** [permute(1, 0, 2, 3)] on a rectangular stack: item (c, d) of the
    result is item (d, c) of the argument. *)
Lemma permute_stack a b h w t :
  has_shape [a; b; h; w]%nat t = true ->
  (0 < a)%nat -> (0 < b)%nat -> (0 < h)%nat ->
  exists out,
    permute_1_0_2_3 t = Ok out /\
    has_shape [b; a; h; w]%nat out = true /\
    forall c d u, at_index t [d; c]%nat = Some u ->
                  at_index out [c; d]%nat = Some u.
Proof.
  intros H Ha Hb Hh. unfold permute_1_0_2_3.
  rewrite (shape_of_has_shape _ _ H) by (repeat constructor; lia).
  eexists. split; [reflexivity|].
  destruct (has_shape_cons _ _ _ H) as (rows & -> & Hl & Hf).
  cbn [children]. split.
  - apply has_shape_intro; [rewrite length_map, length_seq; reflexivity|].
    apply Forall_map, Forall_forall. intros j Hj.
    apply elem_of_seq in Hj.
    apply has_shape_intro; [rewrite length_map; exact Hl|].
    apply Forall_map. eapply Forall_impl; [exact Hf|].
    intros r Hr. destruct (has_shape_cons _ _ _ Hr) as (cols & -> & Hlc & Hfc).
    cbn [children]. rewrite Forall_forall in Hfc. apply Hfc.
    apply list_elem_of_In, nth_In. lia.
  - intros c d u. cbn [at_index item].
    destruct (nth_error rows d) as [r|] eqn:Hr; [|discriminate].
    assert (Hrin : has_shape [b; h; w]%nat r = true).
    { rewrite Forall_forall in Hf. apply Hf, list_elem_of_In.
      eapply nth_error_In, Hr. }
    destruct (has_shape_cons _ _ _ Hrin) as (cols & -> & Hlc & _).
    cbn [item]. destruct (nth_error cols c) as [v|] eqn:Hv; [|discriminate].
    intros Hu. inversion Hu; subst v; clear Hu.
    assert (Hc : (c < b)%nat)
      by (rewrite <- Hlc; apply nth_error_Some; congruence).
    rewrite nth_error_map.
    rewrite (nth_error_nth' (seq 0 b) 0%nat) by (rewrite length_seq; exact Hc).
    rewrite seq_nth by exact Hc. cbn [option_map item Nat.add].
    rewrite nth_error_map, Hr. cbn [option_map children].
    rewrite (nth_error_nth _ _ _ Hv). reflexivity.
Qed.

Section Normalizer.

Variable env : Env.

Lemma at_index_cons t i idx :
  at_index t (i :: idx) =
  match item t i with
  | Some u => at_index u idx
  | None => None
  end.
Proof. reflexivity. Qed.

Lemma item_tmap f t i :
  item (tmap f t) i = option_map (tmap f) (item t i).
Proof.
  destruct t as [x|xs]; cbn; [reflexivity|]. apply nth_error_map.
Qed.

Lemma at_index_scalar_tmap f t idx x :
  at_index t idx = Some (Scalar x) ->
  at_index (tmap f t) idx = Some (Scalar (f x)).
Proof. intros H. rewrite at_index_tmap, H. reflexivity. Qed.

Lemma normalizer_2d h w raw :
  has_shape [3; h; w]%nat raw = true -> (0 < h)%nat ->
  exists out,
    normalizer env "2D" raw = Ok out /\
    has_shape [3; h; w]%nat out = true /\
    forall c i j x,
      at_index raw [c; i; j]%nat = Some (Scalar x) ->
      at_index out [c; i; j]%nat
      = Some (Scalar (norm_sample (nth c imagenet_mean 0%Q)
                                  (nth c imagenet_std 0%Q)
                                  (clip_sample env x))).
Proof.
  intros H Hh.
  pose proof (has_shape_tmap (clip_sample env) _ _ H) as H1.
  unfold normalizer, channel_stats, reorder, clip_and_scale.
  cbn [String.eqb Ascii.eqb Bool.eqb fst snd].
  unfold imagenet_mean at 1, imagenet_std at 1.
  rewrite (normalize_image _ _ _ _ _ _ _ _ _ H1 Hh).
  eexists. split; [reflexivity|].
  split; [apply has_shape_norm_image, H1|].
  intros c i j x.
  rewrite (at_index_cons raw c), (at_index_cons _ c).
  destruct (item raw c) as [u|] eqn:Hu; [|discriminate].
  intros Hx.
  rewrite (item_norm_image _ _ _ _ _ _ _ _ _ (tmap (clip_sample env) u) H1)
    by (rewrite item_tmap, Hu; reflexivity).
  apply at_index_scalar_tmap, at_index_scalar_tmap, Hx.
Qed.

Lemma normalizer_3d d h w raw :
  has_shape [d; 3; h; w]%nat raw = true -> (0 < d)%nat -> (0 < h)%nat ->
  exists out,
    normalizer env "3D" raw = Ok out /\
    has_shape [3; d; h; w]%nat out = true /\
    forall c k i j x,
      at_index raw [k; c; i; j]%nat = Some (Scalar x) ->
      at_index out [c; k; i; j]%nat
      = Some (Scalar (norm_sample 0.45 0.225 (clip_sample env x))).
Proof.
  intros H Hd Hh.
  pose proof (has_shape_tmap (clip_sample env) _ _ H) as H1.
  unfold normalizer, channel_stats, reorder, clip_and_scale.
  cbn [String.eqb Ascii.eqb Bool.eqb fst snd].
  unfold ct_mean at 1, ct_std at 1.
  rewrite (normalize_stack _ _ _ _ _ _ _ _ _ _ H1 Hd Hh).
  set (t1 := tmap (clip_sample env) raw) in *.
  set (t2 := Array (map (norm_image 0.45 0.45 0.45 0.225 0.225 0.225)
                        (children t1))).
  destruct (has_shape_cons _ _ _ H1) as (slices & Ht1 & Hl & Hf).
  assert (H2 : has_shape [d; 3; h; w]%nat t2 = true).
  { unfold t2. rewrite Ht1. cbn [children].
    apply has_shape_intro; [rewrite length_map; exact Hl|].
    apply Forall_map. eapply Forall_impl; [exact Hf|].
    intros s Hs. apply has_shape_norm_image, Hs. }
  destruct (permute_stack _ _ _ _ _ H2 Hd ltac:(lia) Hh)
    as (out & -> & Hout & Hat).
  exists out. split; [reflexivity|]. split; [exact Hout|].
  intros c k i j x.
  rewrite (at_index_cons raw k).
  destruct (item raw k) as [s|] eqn:Hs; [|discriminate].
  rewrite (at_index_cons s c).
  destruct (item s c) as [u|] eqn:Hu; [|discriminate].
  intros Hx.
  change [c; k; i; j]%nat with ([c; k] ++ [i; j])%nat.
  rewrite at_index_app.
  assert (Hs1 : nth_error slices k = Some (tmap (clip_sample env) s)).
  { assert (E : item t1 k = Some (tmap (clip_sample env) s))
      by (unfold t1; rewrite item_tmap, Hs; reflexivity).
    rewrite Ht1 in E. exact E. }
  assert (Hs3 : has_shape [3; h; w]%nat (tmap (clip_sample env) s) = true).
  { rewrite Forall_forall in Hf. apply Hf, list_elem_of_In.
    eapply nth_error_In, Hs1. }
  assert (Hc : (c < 3)%nat).
  { destruct (three_channels _ _ Hs3) as (c0 & c1 & c2 & E & _).
    destruct s as [?|chans]; [discriminate Hu|]. cbn in E.
    assert (Hlen : length chans = 3%nat)
      by (apply (f_equal children) in E; cbn in E;
          apply (f_equal (@length _)) in E; rewrite length_map in E;
          exact E).
    rewrite <- Hlen. apply nth_error_Some. cbn in Hu. congruence. }
  rewrite (Hat c k (tmap (norm_sample 0.45 0.225)
                         (tmap (clip_sample env) u))).
  - apply at_index_scalar_tmap, at_index_scalar_tmap, Hx.
  - rewrite (at_index_cons t2 k). unfold t2. rewrite Ht1.
    cbn [children item].
    rewrite nth_error_map, Hs1. cbn [option_map].
    rewrite at_index_cons.
    rewrite (item_norm_image _ _ _ _ _ _ _ _ _ (tmap (clip_sample env) u) Hs3)
      by (rewrite item_tmap, Hu; reflexivity).
    destruct c as [|[|[|c]]]; try reflexivity. lia.
Qed.

Lemma normalizer_2d_one_channel h w raw :
  has_shape [1; h; w]%nat raw = true -> (0 < h)%nat ->
  exists out,
    normalizer env "2D" raw = Ok out /\
    has_shape [3; h; w]%nat out = true /\
    forall c i j x,
      (c < 3)%nat ->
      at_index raw [0; i; j]%nat = Some (Scalar x) ->
      at_index out [c; i; j]%nat
      = Some (Scalar (norm_sample (nth c imagenet_mean 0%Q)
                                  (nth c imagenet_std 0%Q)
                                  (clip_sample env x))).
Proof.
  intros H Hh.
  pose proof (has_shape_tmap (clip_sample env) _ _ H) as H1.
  unfold normalizer, channel_stats, reorder, clip_and_scale.
  cbn [String.eqb Ascii.eqb Bool.eqb fst snd].
  unfold imagenet_mean at 1, imagenet_std at 1.
  rewrite (normalize_broadcast_image _ _ _ _ _ _ _ _ _ H1 Hh).
  eexists. split; [reflexivity|].
  split; [apply has_shape_broadcast_image, H1|].
  intros c i j x Hc.
  rewrite (at_index_cons raw 0), (at_index_cons _ c).
  destruct (item raw 0) as [u|] eqn:Hu; [|discriminate].
  intros Hx.
  rewrite (item_broadcast_image _ _ _ _ _ _ _ _ _
             (tmap (clip_sample env) u) H1 Hc)
    by (rewrite item_tmap, Hu; reflexivity).
  apply at_index_scalar_tmap, at_index_scalar_tmap, Hx.
Qed.

Lemma normalizer_2d_bad_channels n h w raw :
  has_shape [n; h; w]%nat raw = true ->
  (0 < h)%nat -> (1 < n)%nat -> n <> 3%nat ->
  exists msg, normalizer env "2D" raw = Err (RuntimeError msg).
Proof.
  intros H Hh Hn Hne.
  pose proof (has_shape_tmap (clip_sample env) _ _ H) as H1.
  unfold normalizer, channel_stats, clip_and_scale.
  cbn [String.eqb Ascii.eqb Bool.eqb fst snd].
  destruct (normalize_image_mismatch imagenet_mean imagenet_std
              _ _ _ _ H1 Hh Hn Hne) as [msg ->].
  exists msg. reflexivity.
Qed.

Lemma normalizer_3d_one_channel d h w raw :
  has_shape [d; 1; h; w]%nat raw = true -> (0 < d)%nat -> (0 < h)%nat ->
  exists out,
    normalizer env "3D" raw = Ok out /\
    has_shape [3; d; h; w]%nat out = true /\
    forall c k i j x,
      (c < 3)%nat ->
      at_index raw [k; 0; i; j]%nat = Some (Scalar x) ->
      at_index out [c; k; i; j]%nat
      = Some (Scalar (norm_sample 0.45 0.225 (clip_sample env x))).
Proof.
  intros H Hd Hh.
  pose proof (has_shape_tmap (clip_sample env) _ _ H) as H1.
  unfold normalizer, channel_stats, reorder, clip_and_scale.
  cbn [String.eqb Ascii.eqb Bool.eqb fst snd].
  unfold ct_mean at 1, ct_std at 1.
  rewrite (normalize_broadcast_stack _ _ _ _ _ _ _ _ _ _ H1 Hd Hh).
  set (t1 := tmap (clip_sample env) raw) in *.
  set (t2 := Array (map (broadcast_image 0.45 0.45 0.45 0.225 0.225 0.225)
                        (children t1))).
  destruct (has_shape_cons _ _ _ H1) as (slices & Ht1 & Hl & Hf).
  assert (H2 : has_shape [d; 3; h; w]%nat t2 = true).
  { unfold t2. rewrite Ht1. cbn [children].
    apply has_shape_intro; [rewrite length_map; exact Hl|].
    apply Forall_map. eapply Forall_impl; [exact Hf|].
    intros s Hs. apply has_shape_broadcast_image, Hs. }
  destruct (permute_stack _ _ _ _ _ H2 Hd ltac:(lia) Hh)
    as (out & -> & Hout & Hat).
  exists out. split; [reflexivity|]. split; [exact Hout|].
  intros c k i j x Hc.
  rewrite (at_index_cons raw k).
  destruct (item raw k) as [s|] eqn:Hs; [|discriminate].
  rewrite (at_index_cons s 0).
  destruct (item s 0) as [u|] eqn:Hu; [|discriminate].
  intros Hx.
  change [c; k; i; j]%nat with ([c; k] ++ [i; j])%nat.
  rewrite at_index_app.
  assert (Hs1 : nth_error slices k = Some (tmap (clip_sample env) s)).
  { assert (E : item t1 k = Some (tmap (clip_sample env) s))
      by (unfold t1; rewrite item_tmap, Hs; reflexivity).
    rewrite Ht1 in E. exact E. }
  assert (Hs3 : has_shape [1; h; w]%nat (tmap (clip_sample env) s) = true).
  { rewrite Forall_forall in Hf. apply Hf, list_elem_of_In.
    eapply nth_error_In, Hs1. }
  rewrite (Hat c k (tmap (norm_sample 0.45 0.225)
                         (tmap (clip_sample env) u))).
  - apply at_index_scalar_tmap, at_index_scalar_tmap, Hx.
  - rewrite (at_index_cons t2 k). unfold t2. rewrite Ht1.
    cbn [children item].
    rewrite nth_error_map, Hs1. cbn [option_map].
    rewrite at_index_cons.
    rewrite (item_broadcast_image _ _ _ _ _ _ _ _ _
               (tmap (clip_sample env) u) Hs3 Hc)
      by (rewrite item_tmap, Hu; reflexivity).
    destruct c as [|[|[|c]]]; try reflexivity. lia.
Qed.

Lemma normalizer_3d_bad_channels d n h w raw :
  has_shape [d; n; h; w]%nat raw = true ->
  (0 < d)%nat -> (0 < h)%nat -> (1 < n)%nat -> n <> 3%nat ->
  exists msg, normalizer env "3D" raw = Err (RuntimeError msg).
Proof.
  intros H Hd Hh Hn Hne.
  pose proof (has_shape_tmap (clip_sample env) _ _ H) as H1.
  unfold normalizer, channel_stats, clip_and_scale.
  cbn [String.eqb Ascii.eqb Bool.eqb fst snd].
  destruct (normalize_stack_mismatch ct_mean ct_std
              _ _ _ _ _ H1 Hd Hh Hn Hne) as [msg ->].
  exists msg. reflexivity.
Qed.

End Normalizer.

(** ** The claims *)

(** C1.  [predict] returns exactly when [_process_model] returns raw
    logits, and then it returns the pair (probability, logits) in which
    the probability array is the logistic function applied elementwise to
    the logit array: same shape, and at every index the probability is the
    sigmoid of the logit at that index.  The logits are what the scorer
    returned for the batch whose i-th item is the patch of the i-th
    candidate. *)
Theorem C1_probability_is_sigmoid_of_logit (env : Env) (p : Processor) :
  outcome (predict env p) =
  match outcome (_process_model env (mode p) p) with
  | Ok logits => Ok (tmap (sigmoid env) logits, logits)
  | Err e => Err e
  end /\
  forall probability logits,
    outcome (predict env p) = Ok (probability, logits) ->
    probability = tmap (sigmoid env) logits /\
    shape probability = shape logits /\
    (forall idx x, at_index logits idx = Some (Scalar x) ->
                   at_index probability idx = Some (Scalar (sigmoid env x))) /\
    exists model cs patches,
      coords p = Some cs /\
      Forall2 (fun c patch =>
                 outcome (extract_patch env c (output_shape_for (mode p) p)
                                        (mode p) p) = Ok patch) cs patches /\
      forward env model (Array patches) = Ok logits.
Proof.
  rewrite predict_run. cbn [outcome fst snd]. split; [reflexivity|].
  intros probability logits H.
  destruct (outcome (_process_model env (mode p) p)) as [l|e] eqn:Hl;
    [|discriminate]. cbn in H. inversion H; subst; clear H.
  split; [reflexivity|]. split; [apply shape_tmap|]. split.
  - intros idx x Hx. rewrite at_index_tmap, Hx. reflexivity.
  - destruct (process_model_ok env _ _ _ Hl)
      as (model & cs & patches & ckpt & _ & Hc & Hf & _ & _ & _ & Hfw & _).
    eauto 8.
Qed.

Lemma C1_witness :
  exists probability logits,
    outcome (predict Demo.env
               (submit Demo.two_nodules (Demo.built "3D" "finetune-hiera")))
    = Ok (probability, logits) /\
    probability = tmap (sigmoid Demo.env) logits /\
    shape probability = shape logits.
Proof.
  eexists. eexists. split; [vm_compute; reflexivity|].
  pose proof (proj2 (C1_probability_is_sigmoid_of_logit
                       Demo.env
                       (submit Demo.two_nodules
                               (Demo.built "3D" "finetune-hiera")))) as H.
  destruct (H _ _ ltac:(vm_compute; reflexivity)) as (H1 & H2 & _).
  split; [exact H1|exact H2].
Defined.

(** C2 (as stated it fails).  The third row of the table, "mode 2D with a
    name containing vit selects 2D-ViT", does not hold for a name that
    also contains hiera: the hiera branch is tested first. *)
Lemma C2_counterexample :
  contains "vit" (lower "hiera-vit") = true /\
  exists p,
    outcome (__init__ "2D" false "hiera-vit" tt) = Ok p /\
    variant p = Some V_Hiera2D /\
    variant p <> Some V_ViT2D.
Proof.
  split; [reflexivity|]. eexists. split; [reflexivity|].
  split; [reflexivity|discriminate].
Qed.

(** C2 (amended).  Construction selects exactly one variant by the first
    matching row of the table: mode "3D" with a name containing "hiera"
    (case-insensitively) builds the 3D-Hiera model; mode "2D" with a name
    containing "hiera" builds 2D-Hiera; mode "2D" with a name containing
    "vit" and not "hiera" builds 2D-ViT.  Exactly one model is constructed
    and only the matching attribute is set.  For every other (mode, name)
    construction raises ValueError("Invalid mode and/or model_name."): no
    object is returned and no model is constructed. *)
Theorem C2_selector_table (mode_arg : string) (flag : bool) (name : string) :
  let hiera := contains "hiera" (lower name) in
  let vit := contains "vit" (lower name) in
  let r := __init__ mode_arg flag name tt in
  (mode_arg = "3D" -> hiera = true ->
   exists p, outcome r = Ok p /\ variant p = Some V_Hiera3D /\
             model_3d p = Some (cuda (Hiera3D 64 16 "finetuned")) /\
             model_2d p = None /\
             List.filter is_construct (events r) = [Construct V_Hiera3D]) /\
  (mode_arg = "2D" -> hiera = true ->
   exists p, outcome r = Ok p /\ variant p = Some V_Hiera2D /\
             model_2d p = Some (cuda (Hiera2D 64 "finetuned")) /\
             model_3d p = None /\
             List.filter is_construct (events r) = [Construct V_Hiera2D]) /\
  (mode_arg = "2D" -> hiera = false -> vit = true ->
   exists p, outcome r = Ok p /\ variant p = Some V_ViT2D /\
             model_2d p = Some (cuda (ViT2D 64 "finetuned")) /\
             model_3d p = None /\
             List.filter is_construct (events r) = [Construct V_ViT2D]) /\
  (~ (mode_arg = "3D" /\ hiera = true) ->
   ~ (mode_arg = "2D" /\ (hiera = true \/ vit = true)) ->
   outcome r = Err (ValueError "Invalid mode and/or model_name.") /\
   List.filter is_construct (events r) = []).
Proof.
  cbv zeta. split; [|split; [|split]].
  - intros Hm Hh. rewrite (init_3d_hiera _ flag _ Hm Hh).
    eexists. split; [reflexivity|]. destruct flag; repeat split.
  - intros Hm Hh. rewrite (init_2d_hiera _ flag _ Hm Hh).
    eexists. split; [reflexivity|]. destruct flag; repeat split.
  - intros Hm Hh Hv. rewrite (init_2d_vit _ flag _ Hm Hh Hv).
    eexists. split; [reflexivity|]. destruct flag; repeat split.
  - intros H3 H2. rewrite (init_rejected _ flag _ H3 H2).
    split; [reflexivity|]. destruct flag; reflexivity.
Qed.

Lemma C2_witness :
  (exists p, outcome (__init__ "3D" false "finetune-hiera" tt) = Ok p /\
             variant p = Some V_Hiera3D) /\
  (exists p, outcome (__init__ "2D" true "Finetune-HIERA" tt) = Ok p /\
             variant p = Some V_Hiera2D) /\
  (exists p, outcome (__init__ "2D" false "my-ViT-base" tt) = Ok p /\
             variant p = Some V_ViT2D) /\
  outcome (__init__ "2D" false "resnet" tt)
  = Err (ValueError "Invalid mode and/or model_name.") /\
  outcome (__init__ "3D" false "finetune-vit" tt)
  = Err (ValueError "Invalid mode and/or model_name.") /\
  outcome (__init__ "3d" false "finetune-hiera" tt)
  = Err (ValueError "Invalid mode and/or model_name.").
Proof.
  split.
  { destruct (proj1 (C2_selector_table "3D" false "finetune-hiera")
                    eq_refl eq_refl) as (p & H1 & H2 & _).
    exists p. split; assumption. }
  split.
  { destruct (proj1 (proj2 (C2_selector_table "2D" true "Finetune-HIERA"))
                    eq_refl eq_refl) as (p & H1 & H2 & _).
    exists p. split; assumption. }
  split.
  { destruct (proj1 (proj2 (proj2 (C2_selector_table "2D" false "my-ViT-base")))
                    eq_refl eq_refl eq_refl) as (p & H1 & H2 & _).
    exists p. split; assumption. }
  split.
  { apply (proj2 (proj2 (proj2 (C2_selector_table "2D" false "resnet"))));
      intros [H1 H2]; [discriminate H1|].
    vm_compute in H2. destruct H2; discriminate. }
  split.
  { apply (proj2 (proj2 (proj2 (C2_selector_table "3D" false "finetune-vit"))));
      intros [H1 H2]; [discriminate H2|discriminate H1]. }
  apply (proj2 (proj2 (proj2 (C2_selector_table "3d" false "finetune-hiera"))));
    intros [H1 H2]; discriminate H1.
Defined.

(** C10.  When the lower-cased name contains both "hiera" and "vit",
    construction in mode "2D" builds the 2D-Hiera model and never the
    2D-ViT one: the "hiera" test comes first. *)
Theorem C10_hiera_before_vit (flag : bool) (name : string) :
  contains "hiera" (lower name) = true ->
  contains "vit" (lower name) = true ->
  exists p,
    outcome (__init__ "2D" flag name tt) = Ok p /\
    variant p = Some V_Hiera2D /\
    variant p <> Some V_ViT2D /\
    model_2d p = Some (cuda (Hiera2D 64 "finetuned")) /\
    List.filter is_construct (events (__init__ "2D" flag name tt))
    = [Construct V_Hiera2D].
Proof.
  intros Hh _. rewrite (init_2d_hiera "2D" flag name eq_refl Hh).
  eexists. split; [reflexivity|]. split; [reflexivity|].
  split; [discriminate|]. split; [reflexivity|].
  destruct flag; reflexivity.
Qed.

Lemma C10_witness :
  contains "hiera" (lower "hiera-vit") = true /\
  contains "vit" (lower "hiera-vit") = true /\
  exists p,
    outcome (__init__ "2D" false "hiera-vit" tt) = Ok p /\
    variant p = Some V_Hiera2D /\
    variant p <> Some V_ViT2D.
Proof.
  split; [reflexivity|]. split; [reflexivity|].
  destruct (C10_hiera_before_vit false "hiera-vit" eq_refl eq_refl)
    as (p & H1 & H2 & H3 & _).
  exists p. repeat split; assumption.
Defined.

(** C5.  On an object built by [__init__], after any history of requests,
    the three constants are 64, 50 and 16, a further call leaves them so,
    and every call to the resampler asks for the output shape
    [16, 64, 64] in 3D mode and [1, 64, 64] in 2D mode; a call that
    returns has made exactly one such call per candidate, in order. *)
Theorem C5_requested_patch_shape
        (env : Env) (mode_arg : string) (flag : bool) (name : string)
        (p : Processor) (history : list Request) (rq : Request) :
  outcome (__init__ mode_arg flag name tt) = Ok p ->
  let q := submit rq (serve env p history) in
  let q' := final (predict env q) in
  (size_px q = 64%Z /\ size_mm q = 50%Z /\ depth_px q = 16%Z) /\
  (size_px q' = 64%Z /\ size_mm q' = 50%Z /\ depth_px q' = 16%Z) /\
  (forall c sh vs w m,
      In (ExtractPatch c sh vs w m) (events (predict env q)) ->
      (mode_arg = "3D" /\ sh = [16; 64; 64]%Z) \/
      (mode_arg = "2D" /\ sh = [1; 64; 64]%Z)) /\
  (forall r,
      outcome (predict env q) = Ok r ->
      map (fun e => match e with
                    | ExtractPatch _ sh _ _ _ => sh
                    | _ => []
                    end)
          (List.filter is_extract (events (predict env q)))
      = map (fun _ => if mode_arg =? "3D" then [16; 64; 64]%Z
                      else [1; 64; 64]%Z) (snd rq)).
Proof.
  intros Hinit q q'.
  assert (Hq : constructed mode_arg name q)
    by (apply constructed_submit, constructed_serve,
          (constructed_init _ _ _ _ Hinit)).
  pose proof (constructed_predict env _ _ _ Hq) as Hq'.
  destruct (extraction_calls env _ _ flag p history rq Hinit) as [[k Hk] Hok].
  split; [unfold constructed in Hq; tauto|].
  split; [unfold constructed in Hq'; tauto|].
  split.
  - intros c sh vs w m Hin.
    assert (Hf : In (ExtractPatch c sh vs w m)
                    (List.filter is_extract (events (predict env q))))
      by (apply filter_In; split; [exact Hin|reflexivity]).
    fold q in Hk. rewrite Hk in Hf. apply in_map_iff in Hf.
    destruct Hf as (c' & Heq & _). inversion Heq; subst.
    destruct Hq as (_ & _ & _ & _ & _ & _ & [-> | ->] & _); auto.
  - intros r Hr. fold q in Hok. rewrite (Hok r Hr), map_map. reflexivity.
Qed.

Lemma C5_witness :
  outcome (__init__ "3D" false "finetune-hiera" tt)
  = Ok (Demo.built "3D" "finetune-hiera") /\
  map (fun e => match e with
                | ExtractPatch _ sh _ _ _ => sh
                | _ => []
                end)
      (List.filter is_extract
         (events (predict Demo.env
                    (submit Demo.two_nodules
                       (serve Demo.env (Demo.built "3D" "finetune-hiera")
                              [Demo.two_nodules])))))
  = [[16; 64; 64]; [16; 64; 64]]%Z.
Proof.
  split; [reflexivity|].
  destruct (C5_requested_patch_shape
              Demo.env "3D" false "finetune-hiera"
              (Demo.built "3D" "finetune-hiera") [Demo.two_nodules]
              Demo.two_nodules eq_refl) as (_ & _ & _ & H).
  eapply eq_trans; [eapply H; vm_compute; reflexivity|reflexivity].
Defined.

(** C8.  Every call to the resampler passes the voxel spacing
    (50/64, 50/64, 50/64): the quotient size_mm / size_px of the two
    constants, the same on the three axes and in both modes, whatever the
    request (its volume, header spacing and candidates) and the history. *)
Theorem C8_voxel_pitch
        (env : Env) (mode_arg : string) (flag : bool) (name : string)
        (p : Processor) (history : list Request) (rq : Request) :
  outcome (__init__ mode_arg flag name tt) = Ok p ->
  let q := submit rq (serve env p history) in
  pitch q = (inject_Z 50 / inject_Z 64)%Q /\
  (pitch q == 25 # 32)%Q /\
  (forall c sh vs w m,
      In (ExtractPatch c sh vs w m) (events (predict env q)) ->
      vs = (pitch q, pitch q, pitch q)) /\
  (forall r,
      outcome (predict env q) = Ok r ->
      map (fun e => match e with
                    | ExtractPatch _ _ vs _ _ => Some vs
                    | _ => None
                    end)
          (List.filter is_extract (events (predict env q)))
      = map (fun _ => Some (50 # 64, 50 # 64, 50 # 64)%Q) (snd rq)).
Proof.
  intros Hinit q.
  assert (Hq : constructed mode_arg name q)
    by (apply constructed_submit, constructed_serve,
          (constructed_init _ _ _ _ Hinit)).
  destruct (extraction_calls env _ _ flag p history rq Hinit) as [[k Hk] Hok].
  assert (Hp : pitch q = (50 # 64)%Q).
  { unfold pitch. destruct Hq as (-> & -> & _). reflexivity. }
  split; [rewrite Hp; reflexivity|].
  split; [rewrite Hp; reflexivity|].
  split.
  - intros c sh vs w m Hin.
    assert (Hf : In (ExtractPatch c sh vs w m)
                    (List.filter is_extract (events (predict env q))))
      by (apply filter_In; split; [exact Hin|reflexivity]).
    fold q in Hk. rewrite Hk in Hf. apply in_map_iff in Hf.
    destruct Hf as (c' & Heq & _). inversion Heq; subst.
    rewrite Hp. reflexivity.
  - intros r Hr. fold q in Hok. rewrite (Hok r Hr), map_map. reflexivity.
Qed.

Lemma C8_witness :
  outcome (__init__ "2D" false "finetune-vit" tt)
  = Ok (Demo.built "2D" "finetune-vit") /\
  map (fun e => match e with
                | ExtractPatch _ _ vs _ _ => Some vs
                | _ => None
                end)
      (List.filter is_extract
         (events (predict Demo.env
                    (submit Demo.two_nodules
                            (Demo.built "2D" "finetune-vit")))))
  = [Some (50 # 64, 50 # 64, 50 # 64)%Q; Some (50 # 64, 50 # 64, 50 # 64)%Q].
Proof.
  split; [reflexivity|].
  destruct (C8_voxel_pitch
              Demo.env "2D" false "finetune-vit"
              (Demo.built "2D" "finetune-vit") []
              Demo.two_nodules eq_refl) as (_ & _ & _ & H).
  eapply eq_trans; [eapply H; vm_compute; reflexivity|reflexivity].
Defined.

(** C7 (as stated it fails).  A model name that is an absolute path
    replaces [model_root] in os.path.join: the weights are then not loaded
    from below the constant root. *)
Lemma C7_counterexample :
  let p := Demo.built "3D" "/hiera" in
  outcome (__init__ "3D" false "/hiera" tt) = Ok p /\
  model_root p = "/opt/app/resources/" /\
  List.filter is_load
    (events (predict Demo.env (submit Demo.two_nodules p)))
  = [TorchLoad "/hiera/best_metric_model.pth"] /\
  startswith "/opt/app/resources/" "/hiera/best_metric_model.pth" = false.
Proof. vm_compute. repeat split. Qed.

(** C7 (amended).  On an object built by [__init__], after any history of
    requests (so also directly after an earlier call), [model_root] is the
    constant "/opt/app/resources/" and the checkpoint path is
    os.path.join(model_root, model_name, "best_metric_model.pth"): for a
    relative name this is model_root + model_name +
    "/best_metric_model.pth", while a name that starts with "/" replaces
    the root (names without a trailing separator).  Whatever a call
    observably does after the resampler calls is an initial part of: move
    the batch to the device, load that path, load the state dict, switch
    to evaluation mode, enter no-grad, one forward pass, leave no-grad.  A
    call that returns has done all of it, once: one load of the path, one
    forward pass inside no-grad, on the model that carries the freshly
    loaded checkpoint and is in evaluation mode.  Nothing is cached: this
    holds for every call of every history. *)
Theorem C7_weights_loaded_on_every_call
        (env : Env) (mode_arg : string) (flag : bool) (name : string)
        (p : Processor) (history : list Request) (rq : Request) :
  outcome (__init__ mode_arg flag name tt) = Ok p ->
  let q := submit rq (serve env p history) in
  let path :=
    os_path_join "/opt/app/resources/" [name; "best_metric_model.pth"] in
  model_root q = "/opt/app/resources/" /\
  checkpoint_path q = path /\
  (startswith "/" name = false -> endswith_sep name = false ->
   path = ("/opt/app/resources/" +:+ name) +:+ "/best_metric_model.pth") /\
  (startswith "/" name = true -> endswith_sep name = false ->
   path = name +:+ "/best_metric_model.pth") /\
  (exists pre tail model batch,
      events (predict env q) = pre ++ tail /\
      List.filter (fun e => negb (is_log e || is_extract e)) pre = [] /\
      tail `prefix_of` inference_events path model batch) /\
  (forall r,
      outcome (predict env q) = Ok r ->
      exists model0 ckpt patches,
        chosen_model mode_arg q = Some model0 /\
        torch_load env path = Ok ckpt /\
        let model := eval (set_state_dict model0 ckpt) in
        events (predict env q)
        = log_events q mode_arg
            ++ map (extract_event q (output_shape_for mode_arg q) mode_arg)
                   (snd rq)
            ++ inference_events path model (Array patches) /\
        List.filter is_load (events (predict env q)) = [TorchLoad path] /\
        List.filter is_forward (events (predict env q))
        = [Forward model (Array patches)] /\
        state_dict model = Some ckpt /\
        training model = false /\
        forward env model (Array patches) = Ok (snd r) /\
        chosen_model mode_arg (final (predict env q)) = Some model).
Proof.
  intros Hinit q path.
  assert (Hq : constructed mode_arg name q)
    by (apply constructed_submit, constructed_serve,
          (constructed_init _ _ _ _ Hinit)).
  destruct Hq as (_ & _ & _ & Hm & Hn & Hr & _ & _).
  assert (Hpath : checkpoint_path q = path)
    by (unfold checkpoint_path, path; rewrite Hr, Hn; reflexivity).
  split; [exact Hr|]. split; [exact Hpath|]. split.
  { intros Hs He. apply checkpoint_path_relative; [|exact Hs|exact He].
    exact (nonempty_name _ _ _ _ Hinit). }
  split; [intros Hs He; apply checkpoint_path_absolute; assumption|].
  rewrite predict_run. cbn [outcome final events fst snd]. rewrite Hm. split.
  - destruct (process_model_trace env mode_arg q)
      as (k & cs & tail & batch & model & _ & -> & Hp).
    exists (log_events q mode_arg
              ++ map (extract_event q (output_shape_for mode_arg q) mode_arg)
                     (firstn k cs)), tail, model, batch.
    rewrite <- app_assoc. split; [reflexivity|]. split.
    + rewrite <- (app_nil_r (map _ _)).
      rewrite filter_call_events; reflexivity.
    + rewrite <- Hpath. exact Hp.
  - intros r Hok.
    destruct (outcome (_process_model env mode_arg q)) as [logits|e] eqn:Hl;
      [|discriminate].
    inversion Hok; subst r; clear Hok. cbn [snd].
    destruct (process_model_ok env _ _ _ Hl)
      as (model0 & cs & patches & ckpt & Hc & Hcs & _ & _ & Hld & _ & Hfw
          & Hev & Hfin).
    assert (cs = snd rq) as -> by (cbn in Hcs; congruence).
    exists model0, ckpt, patches. rewrite Hev, Hfin, <- Hpath.
    split; [exact Hc|]. split; [exact Hld|]. cbv zeta.
    split; [reflexivity|].
    split; [rewrite filter_call_events; reflexivity|].
    split; [rewrite filter_call_events; reflexivity|].
    split; [reflexivity|]. split; [reflexivity|]. split; [exact Hfw|].
    unfold chosen_model, with_model, set_model, final. cbn [fst snd].
    destruct (mode_arg =? "3D"); reflexivity.
Qed.

Lemma C7_witness :
  let p := Demo.built "3D" "finetune-hiera" in
  let q := submit Demo.two_nodules (serve Demo.env p [Demo.two_nodules]) in
  outcome (__init__ "3D" false "finetune-hiera" tt) = Ok p /\
  List.filter is_load (events (predict Demo.env q))
  = [TorchLoad "/opt/app/resources/finetune-hiera/best_metric_model.pth"] /\
  length (List.filter is_forward (events (predict Demo.env q))) = 1%nat.
Proof.
  cbv zeta. split; [reflexivity|].
  destruct (C7_weights_loaded_on_every_call
              Demo.env "3D" false "finetune-hiera"
              (Demo.built "3D" "finetune-hiera") [Demo.two_nodules]
              Demo.two_nodules eq_refl) as (_ & _ & _ & _ & _ & H).
  edestruct H as (model0 & ckpt & patches & _ & _ & _ & Hl & Hf & _);
    [vm_compute; reflexivity|].
  split; [rewrite Hl; reflexivity|rewrite Hf; reflexivity].
Defined.

(** C6 (as stated it fails).  A header with none of the required fields
    and an empty candidate list: the request is not refused, the
    checkpoint is loaded and the model is called. *)
Lemma C6_counterexample :
  let q := submit Demo.no_nodules_no_geometry
                  (Demo.built "3D" "finetune-hiera") in
  header q = Some ∅ /\
  header_complete ∅ = false /\
  outcome (predict Demo.env q) = Ok (Array [], Array []) /\
  length (List.filter is_forward (events (predict Demo.env q))) = 1%nat.
Proof. vm_compute. repeat split. Qed.

(** C6 (amended).  [define_inputs] stores the header without looking at
    it.  When the header lacks one of "origin", "transform", "spacing" and
    there is at least one candidate, the call fails with the KeyError of
    the first missing field (in that order), raised while the arguments of
    the first resampler call are evaluated: the object is unchanged and
    nothing has been observable but the advisory log line -- no resampler
    call, no checkpoint load, no forward pass.  With an empty candidate
    list the header is never consulted: the call goes on to the checkpoint
    load, and its outcome and its events are those of the same call with
    any other header in place of this one. *)
Theorem C6_incomplete_header_is_a_key_error
        (env : Env) (mode_arg : string) (flag : bool) (name : string)
        (p : Processor) (history : list Request)
        (img : ndarray) (h : gmap string ndarray) (c : Coord)
        (cs : list Coord) :
  outcome (__init__ mode_arg flag name tt) = Ok p ->
  header_complete h = false ->
  let p0 := serve env p history in
  let q := submit (img, h, c :: cs) p0 in
  define_inputs img h (c :: cs) p0 = (Ok tt, q, []) /\
  predict env q
  = (Err (KeyError (first_missing h)), q, log_events q mode_arg) /\
  nolog (events (predict env q)) = [] /\
  (let q0 := submit (img, h, []) p0 in
   In (TorchLoad (checkpoint_path q0)) (events (predict env q0)) /\
   forall h' : gmap string ndarray,
     outcome (predict env (submit (img, h', []) p0))
     = outcome (predict env q0) /\
     events (predict env (submit (img, h', []) p0))
     = events (predict env q0)).
Proof.
  intros Hinit Hh p0 q.
  assert (Hq : constructed mode_arg name q)
    by (apply constructed_submit, constructed_serve,
          (constructed_init _ _ _ _ Hinit)).
  destruct Hq as (_ & _ & _ & Hm & _ & _ & _ & model & Hc & _).
  assert (Hempty : forall h0 : gmap string ndarray,
            let q0 := submit (img, h0, []) p0 in
            exists r tail,
              outcome (predict env q0) = r /\
              events (predict env q0)
              = log_events q mode_arg
                  ++ ToCuda (Array []) :: TorchLoad (checkpoint_path q) :: tail
              /\ (r, tail)
                 = match torch_load env (checkpoint_path q) with
                   | Err e => (Err e, [])
                   | Ok ckpt =>
                       match check_state_dict env model ckpt with
                       | Some e => (Err e, [LoadStateDict (arch model)])
                       | None =>
                           let model' := eval (set_state_dict model ckpt) in
                           (match forward env model' (Array []) with
                            | Ok l => Ok (tmap (sigmoid env) l, l)
                            | Err e => Err e
                            end,
                            [LoadStateDict (arch model');
                             SetEval (arch model'); NoGradEnter;
                             Forward model' (Array []); NoGradExit])
                       end
                   end).
  { intros h0 q0. rewrite predict_run, process_model_run. cbv zeta.
    change (mode q0) with (mode q). rewrite Hm.
    change (chosen_model mode_arg q0) with (chosen_model mode_arg q).
    rewrite Hc.
    change (coords q0) with (Some (@nil Coord)). cbn [for_each].
    cbn [outcome events fst snd ret np_array].
    change (checkpoint_path q0) with (checkpoint_path q).
    change (log_events q0 mode_arg) with (log_events q mode_arg).
    destruct (torch_load env (checkpoint_path q)) as [ckpt|e];
      [|do 2 eexists; split; [reflexivity|]; split; reflexivity].
    destruct (check_state_dict env model ckpt) as [e|];
      do 2 eexists; (split; [reflexivity|]); split; reflexivity. }
  assert (Hrun : predict env q
                 = (Err (KeyError (first_missing h)), q,
                    log_events q mode_arg)).
  { rewrite predict_run, process_model_run. cbv zeta. rewrite Hm, Hc.
    change (coords q) with (Some (c :: cs)). cbn [for_each].
    rewrite bind_run.
    rewrite (extract_patch_missing env c _ mode_arg q img h eq_refl eq_refl Hh).
    cbn [outcome final events fst snd]. rewrite app_nil_r. reflexivity. }
  split; [reflexivity|]. split; [exact Hrun|].
  split.
  { rewrite Hrun. cbn [events snd]. unfold log_events.
    destruct (suppress_logs q); reflexivity. }
  cbv zeta. split.
  - destruct (Hempty h) as (r & tail & _ & -> & _).
    apply in_or_app. right. right. left. reflexivity.
  - intros h'.
    destruct (Hempty h) as (r & tail & <- & -> & E).
    destruct (Hempty h') as (r' & tail' & <- & -> & E').
    rewrite <- E in E'. inversion E'. split; reflexivity.
Qed.

Lemma C6_witness :
  let p := Demo.built "2D" "finetune-vit" in
  let q := submit Demo.one_nodule_no_spacing p in
  outcome (__init__ "2D" false "finetune-vit" tt) = Ok p /\
  header_complete Demo.geometry_without_spacing = false /\
  predict Demo.env q
  = (Err (KeyError "spacing"), q, [LogInfo "Processing in 2D"]).
Proof.
  cbv zeta. split; [reflexivity|]. split; [vm_compute; reflexivity|].
  destruct (C6_incomplete_header_is_a_key_error
              Demo.env "2D" false "finetune-vit"
              (Demo.built "2D" "finetune-vit") []
              Demo.volume Demo.geometry_without_spacing [1; 2; 3]%Q []
              eq_refl ltac:(vm_compute; reflexivity)) as (_ & H & _).
  eapply eq_trans; [exact H|]. vm_compute. reflexivity.
Defined.

(** C3 (as stated it fails).  With an empty candidate list the model is
    still invoked: the checkpoint is loaded and one forward pass runs on
    the empty batch. *)
Lemma C3_counterexample :
  let q := submit Demo.no_nodules (Demo.built "3D" "finetune-hiera") in
  coords q = Some [] /\
  List.filter (fun e => is_load e || is_forward e) (events (predict Demo.env q))
  = [TorchLoad "/opt/app/resources/finetune-hiera/best_metric_model.pth";
     Forward (eval (set_state_dict (cuda (Hiera3D 64 16 "finetuned")) []))
             (Array [])].
Proof. vm_compute. split; reflexivity. Qed.

(** C3 (amended).  A call that returns has built a batch with exactly one
    patch per candidate, in candidate order, and has invoked the model
    exactly once on that batch -- also when the candidate list is empty,
    which is not special-cased.  The probability array has the length of
    the logit array; when the model returned one logit per item of the
    batch, both have the length of the candidate list (so both are empty
    for an empty candidate list). *)
Theorem C3_one_result_per_candidate
        (env : Env) (p : Processor) (cs : list Coord)
        (probability logits : ndarray) :
  coords p = Some cs ->
  outcome (predict env p) = Ok (probability, logits) ->
  exists model patches,
    length patches = length cs /\
    Forall2 (fun c patch =>
               outcome (extract_patch env c (output_shape_for (mode p) p)
                                      (mode p) p) = Ok patch) cs patches /\
    List.filter is_forward (events (predict env p))
    = [Forward model (Array patches)] /\
    forward env model (Array patches) = Ok logits /\
    len probability = len logits /\
    (len logits = len (Array patches) ->
     len probability = length cs /\ len logits = length cs).
Proof.
  intros Hcs. rewrite predict_run. cbn [outcome events fst snd]. intros H.
  destruct (outcome (_process_model env (mode p) p)) as [l|e] eqn:Hl;
    [|discriminate].
  inversion H; subst; clear H.
  destruct (process_model_ok env _ _ _ Hl)
    as (model0 & cs' & patches & ckpt & _ & Hc & HF & _ & _ & _ & Hfw
        & Hev & _).
  assert (cs' = cs) as -> by congruence.
  exists (eval (set_state_dict model0 ckpt)), patches.
  assert (Hlen : length cs = length patches)
    by (eapply Forall2_length; exact HF).
  split; [symmetry; exact Hlen|]. split; [exact HF|].
  split; [rewrite Hev, filter_call_events; reflexivity|].
  split; [exact Hfw|]. split; [apply len_tmap|].
  intros Hper. rewrite len_tmap, Hper. cbn [len]. auto.
Qed.

Lemma C3_witness :
  let q := submit Demo.two_nodules (Demo.built "3D" "finetune-hiera") in
  coords q = Some (snd Demo.two_nodules) /\
  exists probability logits,
    outcome (predict Demo.env q) = Ok (probability, logits) /\
    len probability = 2%nat /\ len logits = 2%nat.
Proof.
  cbv zeta. split; [reflexivity|]. eexists. eexists.
  split; [vm_compute; reflexivity|].
  edestruct (C3_one_result_per_candidate
               Demo.env
               (submit Demo.two_nodules (Demo.built "3D" "finetune-hiera"))
               (snd Demo.two_nodules))
    as (model & patches & Hn & _ & _ & Hfw & _ & Hper);
    [reflexivity|vm_compute; reflexivity|].
  apply Hper. cbn [len]. rewrite Hn. reflexivity.
Defined.

(** C9.  Two sessions that differ only in [suppress_logs] -- same mode,
    model name, history of requests, request and collaborators -- give the
    caller the same outcome (the same (probability, logits) pair or the
    same exception) and leave the same observable actions apart from log
    lines: the same resampler calls, checkpoint load and forward pass.
    The objects they leave behind differ in that attribute only. *)
Theorem C9_suppress_logs_is_advisory
        (env : Env) (mode_arg name : string) (history : list Request)
        (rq : Request) (b1 b2 : bool) :
  fst (session env mode_arg b1 name history rq)
  = fst (session env mode_arg b2 name history rq) /\
  nolog (snd (session env mode_arg b1 name history rq))
  = nolog (snd (session env mode_arg b2 name history rq)) /\
  forall p1 p2,
    outcome (__init__ mode_arg b1 name tt) = Ok p1 ->
    outcome (__init__ mode_arg b2 name tt) = Ok p2 ->
    p1 = set_flag b1 p2 /\
    final (predict env (submit rq (serve env p1 history)))
    = set_flag b1 (final (predict env (submit rq (serve env p2 history)))).
Proof.
  unfold session.
  rewrite (init_flag mode_arg name b1), (init_flag mode_arg name b2).
  assert (Hlog : forall (b : bool) ev,
             nolog ((if b then []
                     else [LogInfo "Initializing the deep learning system"])
                      ++ ev) = nolog ev)
    by (intros [|] ev; reflexivity).
  cbn [outcome fst snd].
  destruct (outcome (__init__ mode_arg false name tt)) as [p|e].
  - cbn [fst snd].
    assert (Hrun : forall b,
               predict env (submit rq (serve env (set_flag b p) history))
               = predict env (set_flag b (submit rq (serve env p history))))
      by (intros b; rewrite serve_flag; reflexivity).
    rewrite !Hrun.
    destruct (predict_flag env b1 (submit rq (serve env p history)))
      as (Ho1 & Hf1 & He1).
    destruct (predict_flag env b2 (submit rq (serve env p history)))
      as (Ho2 & Hf2 & He2).
    split; [congruence|]. split.
    + rewrite <- !app_assoc, !Hlog, !nolog_app. congruence.
    + intros p1 p2 H1 H2. inversion H1; inversion H2; subst.
      split; [reflexivity|]. rewrite !Hrun, Hf1, Hf2. reflexivity.
  - cbn [fst snd]. split; [reflexivity|].
    split; [rewrite !Hlog; reflexivity|]. intros p1 p2 H1. discriminate H1.
Qed.

Lemma C9_witness :
  let loud := Demo.built "3D" "finetune-hiera" in
  let quiet := set_flag true loud in
  outcome (__init__ "3D" false "finetune-hiera" tt) = Ok loud /\
  outcome (__init__ "3D" true "finetune-hiera" tt) = Ok quiet /\
  final (predict Demo.env
           (submit Demo.two_nodules (serve Demo.env loud [Demo.two_nodules])))
  = set_flag false
      (final (predict Demo.env
                (submit Demo.two_nodules
                        (serve Demo.env quiet [Demo.two_nodules])))).
Proof.
  cbv zeta. split; [reflexivity|]. split; [reflexivity|].
  apply (proj2 (proj2 (C9_suppress_logs_is_advisory
                         Demo.env "3D" "finetune-hiera" [Demo.two_nodules]
                         Demo.two_nodules false true)));
    reflexivity.
Defined.

(** C4.  Once the resampler has answered, [extract_patch] returns what
    three steps give, in this order and for every patch.
    (1) Clip-and-scale (modelled from the specification, the helper is not
    in the source): the shape is kept and every sample x becomes clip(x),
    which for bounds lo < hi lies in [0, 1], is 0 up to lo, 1 from hi on
    and (x - lo) / (hi - lo) in between.
    (2) [v2.Normalize] with mean [0.485, 0.456, 0.406] and std
    [0.229, 0.224, 0.225] when the object's mode is "2D", with [0.45]*3 and
    [0.225]*3 otherwise: the statistics are literals chosen by the mode
    string, whatever the patch.
    (3) When the object's mode is "3D", and only then,
    [permute(1, 0, 2, 3)].
    Sample by sample, for a patch whose channel axis (the third from the
    end) has three entries, the value at channel c is
    (clip(x) - mean[c]) / std[c] of the raw sample x at the same place; a
    single channel is broadcast to three; any other number of channels
    (two, or more than three) is a RuntimeError, and a patch of fewer
    than three axes is a ValueError.  In 3D a patch delivered as
    (D, C, H, W) comes out as (3, D, H, W), i.e. (Channel, Depth, Height,
    Width), with the first two indices exchanged. *)
Theorem C4_normalization_steps
        (env : Env) (p : Processor) (c : Coord) (sh : list Z) (m : string)
        (img : ndarray) (hd : gmap string ndarray) (o tf sp raw : ndarray) :
  image p = Some img -> header p = Some hd ->
  hd !! "origin" = Some o -> hd !! "transform" = Some tf ->
  hd !! "spacing" = Some sp -> size_px p <> 0%Z ->
  dataloader_extract_patch env img c o tf sp sh (pitch p, pitch p, pitch p)
                           true m = Ok raw ->
  let patch := outcome (extract_patch env c sh m p) in
  (mode p = "2D" ->
   patch = normalize [0.485; 0.456; 0.406]%Q [0.229; 0.224; 0.225]%Q
                     (clip_and_scale env raw)) /\
  (mode p = "3D" ->
   patch = match normalize [0.45; 0.45; 0.45]%Q [0.225; 0.225; 0.225]%Q
                           (clip_and_scale env raw) with
           | Ok t => permute_1_0_2_3 t
           | Err e => Err e
           end) /\
  (mode p <> "2D" -> mode p <> "3D" ->
   patch = normalize [0.45; 0.45; 0.45]%Q [0.225; 0.225; 0.225]%Q
                     (clip_and_scale env raw)) /\
  shape (clip_and_scale env raw) = shape raw /\
  (forall idx x,
     at_index raw idx = Some (Scalar x) ->
     at_index (clip_and_scale env raw) idx
     = Some (Scalar (clip_sample env x))) /\
  ((clip_lo env < clip_hi env)%Q ->
   forall x,
     (0 <= clip_sample env x)%Q /\ (clip_sample env x <= 1)%Q /\
     ((x <= clip_lo env)%Q -> clip_sample env x == 0) /\
     ((clip_hi env <= x)%Q -> clip_sample env x == 1) /\
     ((clip_lo env <= x)%Q -> (x <= clip_hi env)%Q ->
      clip_sample env x
      == (x - clip_lo env) / (clip_hi env - clip_lo env))) /\
  ((ndim raw < 3)%nat -> exists msg, patch = Err (ValueError msg)) /\
  (mode p = "2D" ->
   forall h w, (0 < h)%nat ->
     (has_shape [3; h; w]%nat raw = true ->
      exists out,
        patch = Ok out /\
        has_shape [3; h; w]%nat out = true /\
        forall ch i j x,
          at_index raw [ch; i; j]%nat = Some (Scalar x) ->
          at_index out [ch; i; j]%nat
          = Some (Scalar ((clip_sample env x
                           - nth ch [0.485; 0.456; 0.406]%Q 0%Q)
                          / nth ch [0.229; 0.224; 0.225]%Q 0%Q))) /\
     (has_shape [1; h; w]%nat raw = true ->
      exists out,
        patch = Ok out /\
        has_shape [3; h; w]%nat out = true /\
        forall ch i j x,
          (ch < 3)%nat ->
          at_index raw [0; i; j]%nat = Some (Scalar x) ->
          at_index out [ch; i; j]%nat
          = Some (Scalar ((clip_sample env x
                           - nth ch [0.485; 0.456; 0.406]%Q 0%Q)
                          / nth ch [0.229; 0.224; 0.225]%Q 0%Q))) /\
     (forall n, (1 < n)%nat -> n <> 3%nat ->
                has_shape [n; h; w]%nat raw = true ->
      exists msg, patch = Err (RuntimeError msg))) /\
  (mode p = "3D" ->
   forall d h w, (0 < d)%nat -> (0 < h)%nat ->
     (has_shape [d; 3; h; w]%nat raw = true ->
      exists out,
        patch = Ok out /\
        has_shape [3; d; h; w]%nat out = true /\
        forall ch k i j x,
          at_index raw [k; ch; i; j]%nat = Some (Scalar x) ->
          at_index out [ch; k; i; j]%nat
          = Some (Scalar ((clip_sample env x - 0.45) / 0.225))) /\
     (has_shape [d; 1; h; w]%nat raw = true ->
      exists out,
        patch = Ok out /\
        has_shape [3; d; h; w]%nat out = true /\
        forall ch k i j x,
          (ch < 3)%nat ->
          at_index raw [k; 0; i; j]%nat = Some (Scalar x) ->
          at_index out [ch; k; i; j]%nat
          = Some (Scalar ((clip_sample env x - 0.45) / 0.225))) /\
     (forall n, (1 < n)%nat -> n <> 3%nat ->
                has_shape [d; n; h; w]%nat raw = true ->
      exists msg, patch = Err (RuntimeError msg))).
Proof.
  intros Hi Hh Ho Ht Hs Hz Hraw patch. subst patch.
  rewrite (extract_patch_run env c sh m p img hd o tf sp Hi Hh Ho Ht Hs Hz).
  rewrite Hraw. cbn [outcome fst snd].
  split.
  { intros ->. unfold normalizer, channel_stats, reorder.
    cbn [String.eqb Ascii.eqb Bool.eqb fst snd].
    unfold imagenet_mean, imagenet_std.
    destruct (normalize _ _ (clip_and_scale env raw)); reflexivity. }
  split; [intros ->; reflexivity|].
  split.
  { intros H2 H3. unfold normalizer, channel_stats, reorder.
    destruct (String.eqb_spec (mode p) "2D") as [E|_]; [contradiction|].
    destruct (String.eqb_spec (mode p) "3D") as [E|_]; [contradiction|].
    cbn [fst snd]. unfold ct_mean, ct_std.
    destruct (normalize _ _ (clip_and_scale env raw)); reflexivity. }
  split; [apply shape_tmap|].
  split; [intros idx x Hx; apply at_index_scalar_tmap, Hx|].
  split.
  { intros Hlt x.
    destruct (clip_sample_range env x Hlt) as [H0 H1].
    destruct (clip_sample_values env x Hlt) as (Ha & Hb & Hc).
    auto 6. }
  split.
  { intros Hn. unfold normalizer, normalize, ndim, clip_and_scale.
    rewrite shape_tmap. fold (ndim raw).
    destruct (Nat.ltb_spec (ndim raw) 3) as [_|Hge]; [|lia].
    eexists. reflexivity. }
  split.
  - intros -> h w Hpos. split; [|split].
    + intros Hsh. apply (normalizer_2d env h w raw Hsh Hpos).
    + intros Hsh. apply (normalizer_2d_one_channel env h w raw Hsh Hpos).
    + intros n Hn Hne Hsh.
      apply (normalizer_2d_bad_channels env n h w raw Hsh Hpos Hn Hne).
  - intros -> d h w Hd Hpos. split; [|split].
    + intros Hsh. apply (normalizer_3d env d h w raw Hsh Hd Hpos).
    + intros Hsh. apply (normalizer_3d_one_channel env d h w raw Hsh Hd Hpos).
    + intros n Hn Hne Hsh.
      apply (normalizer_3d_bad_channels env d n h w raw Hsh Hd Hpos Hn Hne).
Qed.

Lemma C4_witness :
  let q := submit Demo.two_nodules (Demo.built "3D" "finetune-hiera") in
  let c := [1; 2; 3]%Q in
  let raw := Demo.patch_for "3D" c in
  image q = Some Demo.volume /\
  header q = Some Demo.geometry /\
  has_shape [2; 3; 1; 2]%nat raw = true /\
  exists out,
    outcome (extract_patch Demo.env c [16; 64; 64]%Z "3D" q) = Ok out /\
    has_shape [3; 2; 1; 2]%nat out = true /\
    at_index out [2; 1; 0; 1]%nat
    = Some (Scalar ((clip_sample Demo.env 122 - 0.45) / 0.225)).
Proof.
  cbv zeta. split; [reflexivity|]. split; [reflexivity|].
  split; [reflexivity|].
  destruct (C4_normalization_steps
              Demo.env
              (submit Demo.two_nodules (Demo.built "3D" "finetune-hiera"))
              [1; 2; 3]%Q [16; 64; 64]%Z "3D"
              Demo.volume Demo.geometry
              (Array [Scalar 0; Scalar 0; Scalar 0]) (Array [])
              (Array [Scalar 1; Scalar 1; Scalar 1])
              (Demo.patch_for "3D" [1; 2; 3]%Q)
              eq_refl eq_refl ltac:(vm_compute; reflexivity)
              ltac:(vm_compute; reflexivity) ltac:(vm_compute; reflexivity)
              ltac:(vm_compute; discriminate) eq_refl)
    as (_ & _ & _ & _ & _ & _ & _ & _ & H3).
  destruct (H3 eq_refl 2%nat 1%nat 2%nat ltac:(lia) ltac:(lia))
    as (H33 & _ & _).
  destruct (H33 eq_refl) as (out & Hout & Hsh & Hat).
  exists out. split; [exact Hout|]. split; [exact Hsh|].
  apply Hat. reflexivity.
Defined.

(** * Further properties of the methods *)

(** ** What a call leaves of the object *)

Section Frame.

Variable env : Env.

Lemma blank_reloaded model ckpt :
  blank_model (eval (set_state_dict model ckpt)) = blank_model model.
Proof. reflexivity. Qed.

Lemma reload_blank model ckpt :
  eval (set_state_dict (blank_model model) ckpt)
  = eval (set_state_dict model ckpt).
Proof. reflexivity. Qed.

Lemma process_model_frame m p :
  let p' := final (_process_model env m p) in
  size_px p' = size_px p /\ size_mm p' = size_mm p /\
  depth_px p' = depth_px p /\ model_name p' = model_name p /\
  mode p' = mode p /\ suppress_logs p' = suppress_logs p /\
  model_root p' = model_root p /\ image p' = image p /\
  header p' = header p /\ coords p' = coords p /\
  other_model m p' = other_model m p /\
  forget p' = forget p.
Proof.
  cbv zeta.
  destruct (process_model_final env m p) as [-> | (model & ckpt & Hc & ->)];
    [repeat split|].
  unfold with_model, set_model, final, other_model, chosen_model, forget in *.
  cbn [fst snd].
  destruct (m =? "3D"); cbn; rewrite Hc; repeat split.
Qed.

Lemma predict_frame p :
  let p' := final (predict env p) in
  size_px p' = size_px p /\ size_mm p' = size_mm p /\
  depth_px p' = depth_px p /\ model_name p' = model_name p /\
  mode p' = mode p /\ suppress_logs p' = suppress_logs p /\
  model_root p' = model_root p /\ image p' = image p /\
  header p' = header p /\ coords p' = coords p /\
  other_model (mode p) p' = other_model (mode p) p /\
  forget p' = forget p.
Proof.
  cbv zeta. rewrite predict_run. cbn [final fst snd].
  apply process_model_frame.
Qed.

Lemma serve_keeps history :
  forall p,
    suppress_logs (serve env p history) = suppress_logs p /\
    mode (serve env p history) = mode p /\
    other_model (mode p) (serve env p history) = other_model (mode p) p.
Proof.
  induction history as [|rq rest IH]; intros p; [repeat split|].
  cbn [serve].
  destruct (IH (final (predict env (submit rq p)))) as (H1 & H2 & H3).
  destruct (predict_frame (submit rq p))
    as (_ & _ & _ & _ & Hm & Hs & _ & _ & _ & _ & Ho & _).
  change (mode (submit rq p)) with (mode p) in *.
  rewrite Hm in H3, H2. rewrite H1, H2, H3, Hs, Ho. repeat split.
Qed.

End Frame.

(** X1.  A call changes nothing of the object but the model it runs:
    the three constants, the names, the mode, the flag, the inputs of the
    last [define_inputs] and the other model attribute are as before, and
    of the model that ran only the loaded weights and the training flag
    can differ. *)
Theorem X1_predict_keeps_the_object (env : Env) (p : Processor) :
  let p' := final (predict env p) in
  (size_px p' = size_px p /\ size_mm p' = size_mm p /\
   depth_px p' = depth_px p) /\
  (model_name p' = model_name p /\ mode p' = mode p /\
   suppress_logs p' = suppress_logs p /\ model_root p' = model_root p) /\
  (image p' = image p /\ header p' = header p /\ coords p' = coords p) /\
  other_model (mode p) p' = other_model (mode p) p /\
  option_map blank_model (chosen_model (mode p) p')
  = option_map blank_model (chosen_model (mode p) p).
Proof.
  cbv zeta.
  destruct (predict_frame env p)
    as (H1 & H2 & H3 & H4 & H5 & H6 & H7 & H8 & H9 & H10 & H11 & H12).
  repeat split; try assumption.
  unfold chosen_model. apply (f_equal model_3d) in H12 as E3.
  apply (f_equal model_2d) in H12 as E2. cbn in E3, E2.
  destruct (mode p =? "3D"); assumption.
Qed.

(** ** Calls the object is not ready for *)

Section NotReady.

Variable env : Env.
Variables mode_arg name : string.
Variable flag : bool.

Lemma init_fresh p :
  outcome (__init__ mode_arg flag name tt) = Ok p ->
  suppress_logs p = flag /\ mode p = mode_arg /\
  image p = None /\ header p = None /\ coords p = None /\
  other_model mode_arg p = None /\
  exists model, chosen_model mode_arg p = Some model.
Proof.
  intros H. destruct (init_ok_inv _ _ _ _ H) as (m3 & m2 & -> & Hm).
  unfold other_model, chosen_model. cbn.
  destruct Hm as [(-> & -> & ->) | (-> & -> & [-> | ->])]; cbn;
    repeat split; eauto.
Qed.

Lemma ready_other_model p history rq :
  outcome (__init__ mode_arg flag name tt) = Ok p ->
  let q := submit rq (serve env p history) in
  mode q = mode_arg /\ suppress_logs q = flag /\
  other_model mode_arg q = None.
Proof.
  intros H q. destruct (init_fresh p H) as (Hs & Hm & _ & _ & _ & Ho & _).
  destruct (serve_keeps env history p) as (H1 & H2 & H3).
  rewrite Hm in H3.
  change (mode q) with (mode (serve env p history)).
  change (suppress_logs q) with (suppress_logs (serve env p history)).
  change (other_model mode_arg q)
    with (other_model mode_arg (serve env p history)).
  rewrite H1, H2, H3. auto.
Qed.

End NotReady.

(** X2.  [predict] on an object that has been constructed but has not
    been given inputs raises AttributeError for [coords]: the object is
    unchanged and nothing but the advisory log line has happened -- no
    resampler call, no checkpoint load, no forward pass. *)
Theorem X2_predict_before_define_inputs
        (env : Env) (mode_arg : string) (flag : bool) (name : string)
        (p : Processor) :
  outcome (__init__ mode_arg flag name tt) = Ok p ->
  predict env p
  = (Err (AttributeError "coords"), p,
     if flag then [] else [LogInfo ("Processing in " +:+ mode_arg)]).
Proof.
  intros H.
  destruct (init_fresh mode_arg name flag p H)
    as (Hs & Hm & _ & _ & Hc & _ & model & Hch).
  rewrite predict_run, process_model_run. cbv zeta.
  rewrite Hm, Hch, Hc. unfold log_events. rewrite Hs. reflexivity.
Qed.

Lemma X2_witness :
  outcome (__init__ "2D" false "finetune-vit" tt)
  = Ok (Demo.built "2D" "finetune-vit") /\
  predict Demo.env (Demo.built "2D" "finetune-vit")
  = (Err (AttributeError "coords"), Demo.built "2D" "finetune-vit",
     [LogInfo "Processing in 2D"]).
Proof.
  split; [reflexivity|].
  exact (X2_predict_before_define_inputs
           Demo.env "2D" false "finetune-vit"
           (Demo.built "2D" "finetune-vit") eq_refl).
Defined.

(** X3.  An object holds the model of its own mode only, at construction
    and after any history of requests.  Asking [_process_model] for the
    other kind of processing -- "3D" on an object built for 2D, anything
    but "3D" on an object built for 3D -- raises AttributeError for the
    model attribute that was never set, before any resampler call or
    checkpoint load, and leaves the object unchanged. *)
Theorem X3_process_model_in_another_mode
        (env : Env) (mode_arg : string) (flag : bool) (name : string)
        (p : Processor) (history : list Request) (rq : Request)
        (m : string) :
  outcome (__init__ mode_arg flag name tt) = Ok p ->
  (m =? "3D") = negb (mode_arg =? "3D") ->
  let q := submit rq (serve env p history) in
  other_model mode_arg q = None /\
  _process_model env m q
  = (Err (AttributeError (if m =? "3D" then "model_3d" else "model_2d")),
     q, if flag then [] else [LogInfo ("Processing in " +:+ m)]).
Proof.
  intros H Hm q.
  destruct (ready_other_model env mode_arg name flag p history rq H)
    as (_ & Hs & Ho).
  fold q in Hs, Ho. split; [exact Ho|].
  rewrite process_model_run. cbv zeta.
  assert (Hch : chosen_model m q = None).
  { unfold chosen_model, other_model in *. rewrite Hm.
    destruct (mode_arg =? "3D"); exact Ho. }
  rewrite Hch. unfold log_events. rewrite Hs. reflexivity.
Qed.

Lemma X3_witness :
  let p := Demo.built "3D" "finetune-hiera" in
  let q := submit Demo.two_nodules (serve Demo.env p [Demo.two_nodules]) in
  outcome (__init__ "3D" false "finetune-hiera" tt) = Ok p /\
  ("2D" =? "3D") = negb ("3D" =? "3D") /\
  _process_model Demo.env "2D" q
  = (Err (AttributeError "model_2d"), q, [LogInfo "Processing in 2D"]).
Proof.
  cbv zeta. split; [reflexivity|]. split; [reflexivity|].
  exact (proj2 (X3_process_model_in_another_mode
                  Demo.env "3D" false "finetune-hiera"
                  (Demo.built "3D" "finetune-hiera") [Demo.two_nodules]
                  Demo.two_nodules "2D" eq_refl eq_refl)).
Defined.

(** ** Requests do not influence one another *)

Section Independence.

Variable env : Env.

(** [extract_patch] reads the inputs, the two size constants and the mode,
    and nothing else of the object. *)
Lemma extract_patch_agree c sh m p p' :
  image p' = image p -> header p' = header p ->
  size_mm p' = size_mm p -> size_px p' = size_px p -> mode p' = mode p ->
  extract_patch env c sh m p' =
  (outcome (extract_patch env c sh m p), p',
   events (extract_patch env c sh m p)).
Proof.
  destruct p, p'. cbn [image header size_mm size_px mode].
  intros -> -> -> -> ->.
  unfold extract_patch. py_run.
  cbn [image header size_mm size_px mode].
  repeat (case_inner; py_run;
          cbn [image header size_mm size_px mode];
          try reflexivity).
Qed.

Lemma for_each_agree sh m cs p p' :
  image p' = image p -> header p' = header p ->
  size_mm p' = size_mm p -> size_px p' = size_px p -> mode p' = mode p ->
  for_each (fun c => extract_patch env c sh m) cs p' =
  (outcome (for_each (fun c => extract_patch env c sh m) cs p), p',
   events (for_each (fun c => extract_patch env c sh m) cs p)).
Proof.
  intros Hi Hh Hmm Hpx Hmo.
  induction cs as [|c cs IH]; [reflexivity|].
  cbn [for_each].
  rewrite !bind_run, (extract_patch_agree c sh m p p' Hi Hh Hmm Hpx Hmo).
  pose proof (extract_patch_state env c sh m p) as Hst.
  destruct (extract_patch env c sh m p) as [[[patch|e] s1] ev1];
    cbn [outcome final events fst snd] in Hst |- *; subst s1;
    [|reflexivity].
  rewrite !bind_run, IH.
  destruct (for_each_extract env sh m p cs) as (Hst & _ & _).
  destruct (for_each _ cs p) as [[[ps|e] s2] ev2];
    cbn [outcome final events fst snd] in Hst |- *; subst s2; reflexivity.
Qed.

Hypothesis check_by_architecture :
  forall model ckpt,
    check_state_dict env model ckpt
    = check_state_dict env (blank_model model) ckpt.

Lemma process_model_forget m p :
  outcome (_process_model env m (forget p))
  = outcome (_process_model env m p) /\
  events (_process_model env m (forget p))
  = events (_process_model env m p).
Proof.
  rewrite !process_model_run. cbv zeta.
  change (coords (forget p)) with (coords p).
  change (output_shape_for m (forget p)) with (output_shape_for m p).
  change (checkpoint_path (forget p)) with (checkpoint_path p).
  change (log_events (forget p) m) with (log_events p m).
  assert (Hch : chosen_model m (forget p)
                = option_map blank_model (chosen_model m p))
    by (unfold chosen_model; destruct (m =? "3D"); reflexivity).
  rewrite Hch.
  destruct (chosen_model m p) as [model|]; [|split; reflexivity].
  cbn [option_map].
  destruct (coords p) as [cs|]; [|split; reflexivity].
  rewrite (for_each_agree (output_shape_for m p) m cs p (forget p))
    by reflexivity.
  cbn [outcome events fst snd].
  destruct (outcome (for_each _ cs p)) as [patches|e]; [|split; reflexivity].
  destruct (np_array patches) as [batch|e]; [|split; reflexivity].
  destruct (torch_load env (checkpoint_path p)) as [ckpt|e];
    [|split; reflexivity].
  rewrite <- check_by_architecture.
  destruct (check_state_dict env model ckpt); split; reflexivity.
Qed.

Lemma predict_forget p :
  outcome (predict env (forget p)) = outcome (predict env p) /\
  events (predict env (forget p)) = events (predict env p).
Proof.
  rewrite !predict_run. cbn [outcome events fst snd].
  change (mode (forget p)) with (mode p).
  destruct (process_model_forget (mode p) p) as [-> ->]. split; reflexivity.
Qed.

Lemma forget_history rq history :
  forall p, forget (submit rq (serve env p history)) = forget (submit rq p).
Proof.
  induction history as [|r rest IH]; intros p; [reflexivity|].
  cbn [serve]. rewrite IH.
  change (forget (submit rq (final (predict env (submit r p)))))
    with (submit rq (forget (final (predict env (submit r p))))).
  destruct (predict_frame env (submit r p))
    as (_ & _ & _ & _ & _ & _ & _ & _ & _ & _ & _ & ->).
  reflexivity.
Qed.

Lemma predict_after_history rq history p :
  outcome (predict env (submit rq (serve env p history)))
  = outcome (predict env (submit rq p)) /\
  events (predict env (submit rq (serve env p history)))
  = events (predict env (submit rq p)).
Proof.
  destruct (predict_forget (submit rq (serve env p history))) as [<- <-].
  destruct (predict_forget (submit rq p)) as [<- <-].
  rewrite forget_history. split; reflexivity.
Qed.

End Independence.

(** X4.  Requests do not influence one another.  When the check of a
    checkpoint against a model looks at the model's architecture only (not
    at the weights it currently holds), the outcome of a request and
    everything it observably does are the same after any history of
    earlier requests as on the object it was started from; in particular
    repeating a request repeats its answer.  The weights are reloaded and
    the evaluation mode is set again on every call, so nothing a former
    call left in the model is read. *)
Theorem X4_requests_are_independent
        (env : Env) (p : Processor) (history : list Request) (rq : Request) :
  (forall model ckpt,
      check_state_dict env model ckpt
      = check_state_dict env (blank_model model) ckpt) ->
  outcome (predict env (submit rq (serve env p history)))
  = outcome (predict env (submit rq p)) /\
  events (predict env (submit rq (serve env p history)))
  = events (predict env (submit rq p)) /\
  outcome (predict env (final (predict env (submit rq p))))
  = outcome (predict env (submit rq p)).
Proof.
  intros Hck.
  destruct (predict_after_history env Hck rq history p) as [H1 H2].
  split; [exact H1|]. split; [exact H2|].
  destruct (predict_after_history env Hck rq [rq] p) as [H3 _].
  cbn [serve] in H3.
  assert (E : submit rq (final (predict env (submit rq p)))
              = final (predict env (submit rq p))).
  { destruct (predict_frame env (submit rq p))
      as (A1 & A2 & A3 & A4 & A5 & A6 & A7 & A8 & A9 & A10 & _).
    unfold submit at 1. unfold define_inputs, final at 1. cbn [fst snd].
    destruct (final (predict env (submit rq p))).
    cbn in *. congruence. }
  rewrite E in H3. exact H3.
Qed.

Lemma X4_witness :
  let p := Demo.built "3D" "finetune-hiera" in
  (forall model ckpt,
      check_state_dict Demo.env model ckpt
      = check_state_dict Demo.env (blank_model model) ckpt) /\
  events (predict Demo.env
            (submit Demo.two_nodules
                    (serve Demo.env p [Demo.no_nodules; Demo.two_nodules])))
  = events (predict Demo.env (submit Demo.two_nodules p)).
Proof.
  cbv zeta. split; [intros; reflexivity|].
  exact (proj1 (proj2 (X4_requests_are_independent
                         Demo.env (Demo.built "3D" "finetune-hiera")
                         [Demo.no_nodules; Demo.two_nodules]
                         Demo.two_nodules
                         (fun _ _ => eq_refl)))).
Defined.

(** ** Calls that fail on the way *)

Section Failures.

Variable env : Env.

Lemma for_each_ok sh m p cs patches :
  Forall2 (fun c patch => outcome (extract_patch env c sh m p) = Ok patch)
          cs patches ->
  for_each (fun c => extract_patch env c sh m) cs p
  = (Ok patches, p, map (extract_event p sh m) cs).
Proof.
  induction 1 as [|c patch cs patches Hc _ IH]; [reflexivity|].
  cbn [for_each]. rewrite bind_run.
  pose proof (extract_patch_state env c sh m p) as Hst.
  pose proof (extract_patch_ok_events env c sh m p patch Hc) as Hev.
  destruct (extract_patch env c sh m p) as [[r s1] ev1].
  cbn [outcome final events fst snd] in Hc, Hst, Hev. subst r s1 ev1.
  rewrite bind_run, IH. cbn. rewrite app_nil_r. reflexivity.
Qed.

Lemma for_each_fail sh m p pre c post e :
  Forall (fun c' => exists patch,
              outcome (extract_patch env c' sh m p) = Ok patch) pre ->
  outcome (extract_patch env c sh m p) = Err e ->
  for_each (fun c => extract_patch env c sh m) (pre ++ c :: post) p
  = (Err e, p,
     map (extract_event p sh m) pre ++ events (extract_patch env c sh m p)).
Proof.
  intros Hpre Hc. induction Hpre as [|c' pre [patch Hc'] _ IH].
  - cbn [app for_each map]. rewrite bind_run.
    pose proof (extract_patch_state env c sh m p) as Hst.
    destruct (extract_patch env c sh m p) as [[r s1] ev1].
    cbn [outcome final events fst snd] in Hc, Hst |- *. subst r s1.
    reflexivity.
  - cbn [app for_each map]. rewrite bind_run.
    pose proof (extract_patch_state env c' sh m p) as Hst.
    pose proof (extract_patch_ok_events env c' sh m p patch Hc') as Hev.
    destruct (extract_patch env c' sh m p) as [[r s1] ev1].
    cbn [outcome final events fst snd] in Hc', Hst, Hev. subst r s1 ev1.
    rewrite bind_run, IH. reflexivity.
Qed.

Lemma touches_model_call_events p sh m cs tail :
  List.filter touches_model
              (log_events p m ++ map (extract_event p sh m) cs ++ tail)
  = List.filter touches_model tail.
Proof. apply filter_call_events; reflexivity. Qed.

End Failures.

(** X5.  When the resampler (or the normaliser) fails on a candidate, the
    call stops there: it raises that very exception, the candidates after
    it are never looked at, the object is unchanged, and neither the
    device transfer nor the checkpoint load nor a forward pass has
    happened -- there is no result for the candidates that had already
    been extracted. *)
Theorem X5_failed_extraction_stops_the_call
        (env : Env) (p : Processor) (model : Model)
        (pre : list Coord) (c : Coord) (post : list Coord) (e : exn) :
  let sh := output_shape_for (mode p) p in
  chosen_model (mode p) p = Some model ->
  coords p = Some (pre ++ c :: post) ->
  Forall (fun c' => exists patch,
              outcome (extract_patch env c' sh (mode p) p) = Ok patch) pre ->
  outcome (extract_patch env c sh (mode p) p) = Err e ->
  predict env p
  = (Err e, p,
     log_events p (mode p)
       ++ map (extract_event p sh (mode p)) pre
       ++ events (extract_patch env c sh (mode p) p)) /\
  List.filter (fun ev => match ev with
                         | ToCuda _ | TorchLoad _ => true
                         | _ => touches_model ev
                         end) (events (predict env p)) = [].
Proof.
  intros sh Hm Hcs Hpre Hc.
  assert (Hrun : predict env p
                 = (Err e, p,
                    log_events p (mode p)
                      ++ map (extract_event p sh (mode p)) pre
                      ++ events (extract_patch env c sh (mode p) p))).
  { rewrite predict_run, process_model_run. cbv zeta. rewrite Hm, Hcs.
    fold sh. rewrite (for_each_fail env sh (mode p) p pre c post e Hpre Hc).
    reflexivity. }
  split; [exact Hrun|]. rewrite Hrun. cbn [events snd].
  destruct (extract_patch_events env c sh (mode p) p) as [-> | ->].
  - rewrite filter_call_events; reflexivity.
  - assert (E : map (extract_event p sh (mode p)) pre
                  ++ [extract_event p sh (mode p) c]
                = map (extract_event p sh (mode p)) (pre ++ [c]) ++ [])
      by (rewrite map_app, app_nil_r; reflexivity).
    rewrite E, filter_call_events; reflexivity.
Qed.

Lemma X5_witness :
  let p := submit Faulty.three_nodules (Demo.built "3D" "finetune-hiera") in
  coords p = Some ([[1; 2; 3]%Q] ++ [-200; 1; 1]%Q :: [[5; 5; 5]%Q]) /\
  outcome (extract_patch Faulty.bad_patch [-200; 1; 1]%Q
                         (output_shape_for (mode p) p) (mode p) p)
  = Err (RuntimeError "candidate outside the volume") /\
  outcome (predict Faulty.bad_patch p)
  = Err (RuntimeError "candidate outside the volume") /\
  length (events (predict Faulty.bad_patch p)) = 3%nat.
Proof.
  cbv zeta. split; [reflexivity|]. split; [vm_compute; reflexivity|].
  destruct (X5_failed_extraction_stops_the_call
              Faulty.bad_patch
              (submit Faulty.three_nodules (Demo.built "3D" "finetune-hiera"))
              (cuda (Hiera3D 64 16 "finetuned"))
              [[1; 2; 3]%Q] [-200; 1; 1]%Q [[5; 5; 5]%Q]
              (RuntimeError "candidate outside the volume")
              eq_refl eq_refl
              ltac:(constructor; [eexists; vm_compute; reflexivity
                                 |constructor])
              ltac:(vm_compute; reflexivity)) as [H _].
  rewrite H. split; [reflexivity|]. vm_compute. reflexivity.
Defined.

(** X6.  When the checkpoint cannot be read, the call cannot return a
    result and leaves the object exactly as it was: no state dict is
    loaded, the evaluation mode is not set and the model is not called.
    If all patches had been extracted, the exception of [torch.load] is
    what the caller gets, after the batch has gone to the device. *)
Theorem X6_unreadable_checkpoint
        (env : Env) (p : Processor) (e : exn) :
  torch_load env (checkpoint_path p) = Err e ->
  final (predict env p) = p /\
  (exists e', outcome (predict env p) = Err e') /\
  List.filter touches_model (events (predict env p)) = [] /\
  forall model cs patches,
    chosen_model (mode p) p = Some model ->
    coords p = Some cs ->
    Forall2 (fun c patch =>
               outcome (extract_patch env c (output_shape_for (mode p) p)
                                      (mode p) p) = Ok patch) cs patches ->
    np_array patches = Ok (Array patches) ->
    predict env p
    = (Err e, p,
       log_events p (mode p)
         ++ map (extract_event p (output_shape_for (mode p) p) (mode p)) cs
         ++ [ToCuda (Array patches); TorchLoad (checkpoint_path p)]).
Proof.
  intros Hload. rewrite !predict_run, !process_model_run. cbv zeta.
  cbn [outcome final events fst snd]. rewrite Hload.
  split; [|split; [|split]].
  - repeat (case_inner; cbn [final fst snd]; try reflexivity).
  - repeat (case_inner; cbn [outcome fst snd]; eauto).
  - assert (Hlog : List.filter touches_model (log_events p (mode p)) = [])
      by (unfold log_events; destruct (suppress_logs p); reflexivity).
    assert (Hex : forall cs,
               List.filter touches_model
                 (map (extract_event p (output_shape_for (mode p) p) (mode p))
                      cs) = [])
      by (intros cs; induction cs as [|c cs IH]; [reflexivity|exact IH]).
    destruct (chosen_model (mode p) p) as [model|]; [|exact Hlog].
    destruct (coords p) as [cs|]; [|exact Hlog].
    destruct (for_each_extract env (output_shape_for (mode p) p) (mode p) p cs)
      as (_ & (k & Hk) & _).
    rewrite Hk.
    destruct (outcome (for_each _ cs p)) as [patches|e0];
      [destruct (np_array patches) as [batch|e0]|]; cbn [events snd];
      rewrite !List.filter_app, Hlog, Hex; reflexivity.
  - intros model cs patches Hm Hcs HF Hnp. rewrite Hm, Hcs.
    rewrite (for_each_ok env _ _ _ _ _ HF).
    cbn [outcome final events fst snd]. rewrite Hnp. reflexivity.
Qed.

Lemma X6_witness :
  let p := submit Demo.two_nodules (Demo.built "3D" "finetune-hiera") in
  torch_load Faulty.no_checkpoint (checkpoint_path p)
  = Err (OSError "/opt/app/resources/finetune-hiera/best_metric_model.pth") /\
  final (predict Faulty.no_checkpoint p) = p /\
  List.filter touches_model (events (predict Faulty.no_checkpoint p)) = [].
Proof.
  cbv zeta. split; [reflexivity|].
  destruct (X6_unreadable_checkpoint
              Faulty.no_checkpoint
              (submit Demo.two_nodules (Demo.built "3D" "finetune-hiera"))
              (OSError "/opt/app/resources/finetune-hiera/best_metric_model.pth")
              eq_refl) as (H1 & _ & H3 & _).
  split; [exact H1|exact H3].
Defined.

(** X7.  The no-grad context is always left, and a failing forward pass
    is reported as it is.  Whenever a call has entered the context, its
    events end with: enter, one forward pass, exit -- also when the
    forward pass raises.  The call then returns the sigmoid pair of the
    logits or raises the exception of the forward pass, and in both cases
    the model attribute of the object holds the freshly loaded checkpoint
    and is in evaluation mode. *)
Theorem X7_no_grad_is_always_left (env : Env) (p : Processor) :
  In NoGradEnter (events (predict env p)) ->
  exists pre model0 ckpt batch,
    let model := eval (set_state_dict model0 ckpt) in
    events (predict env p)
    = pre ++ [NoGradEnter; Forward model batch; NoGradExit] /\
    List.filter touches_model pre
    = [LoadStateDict (arch model0); SetEval (arch model0)] /\
    outcome (predict env p)
    = match forward env model batch with
      | Ok logits => Ok (tmap (sigmoid env) logits, logits)
      | Err e => Err e
      end /\
    chosen_model (mode p) (final (predict env p)) = Some model /\
    state_dict model = Some ckpt /\ training model = false.
Proof.
  rewrite !predict_run, !process_model_run. cbv zeta.
  cbn [outcome final events fst snd].
  assert (Hno : forall cs tail,
             List.filter touches_model tail = List.filter touches_model [] \/
             (exists v, List.filter touches_model tail = [LoadStateDict v]) ->
             ~ In NoGradEnter
                 (log_events p (mode p)
                    ++ map (extract_event p (output_shape_for (mode p) p)
                                          (mode p)) cs
                    ++ tail)).
  { intros cs tail Ht Hin.
    assert (Hf : In NoGradEnter
                    (List.filter touches_model
                       (log_events p (mode p)
                          ++ map (extract_event p
                                    (output_shape_for (mode p) p) (mode p)) cs
                          ++ tail)))
      by (apply filter_In; split; [exact Hin|reflexivity]).
    rewrite touches_model_call_events in Hf.
    destruct Ht as [Ht | [v Ht]]; rewrite Ht in Hf; cbn in Hf;
      [contradiction|].
    destruct Hf as [Hf | []]. discriminate Hf. }
  destruct (chosen_model (mode p) p) as [model0|] eqn:Hm.
  2:{ cbn [events snd]. intros Hin. exfalso.
      apply (Hno [] []); [left; reflexivity|].
      cbn [map]. rewrite !app_nil_r. exact Hin. }
  destruct (coords p) as [cs|].
  2:{ cbn [events snd]. intros Hin. exfalso.
      apply (Hno [] []); [left; reflexivity|].
      cbn [map]. rewrite !app_nil_r. exact Hin. }
  destruct (for_each_extract env (output_shape_for (mode p) p) (mode p) p cs)
    as (_ & (k & Hk) & _).
  rewrite Hk.
  destruct (outcome (for_each _ cs p)) as [patches|e0].
  2:{ cbn [events snd]. intros Hin. exfalso.
      apply (Hno (firstn k cs) []); [left; reflexivity|].
      rewrite app_nil_r. exact Hin. }
  destruct (np_array patches) as [batch|e0].
  2:{ cbn [events snd]. intros Hin. exfalso.
      apply (Hno (firstn k cs) []); [left; reflexivity|].
      rewrite app_nil_r. exact Hin. }
  destruct (torch_load env (checkpoint_path p)) as [ckpt|e0].
  2:{ cbn [events snd]. intros Hin. exfalso.
      eapply Hno; [|exact Hin]. left; reflexivity. }
  destruct (check_state_dict env model0 ckpt).
  { cbn [events snd]. intros Hin. exfalso.
    eapply Hno; [|exact Hin]. right. eexists. reflexivity. }
  cbn [outcome final events fst snd]. intros _.
  exists (log_events p (mode p)
            ++ map (extract_event p (output_shape_for (mode p) p) (mode p))
                   (firstn k cs)
            ++ [ToCuda batch; TorchLoad (checkpoint_path p);
                LoadStateDict (arch model0); SetEval (arch model0)]),
    model0, ckpt, batch.
  cbv zeta. split; [rewrite <- !app_assoc; reflexivity|].
  split; [rewrite touches_model_call_events; reflexivity|].
  split; [reflexivity|]. split; [|split; reflexivity].
  unfold chosen_model, with_model, set_model, final. cbn [fst snd].
  destruct (mode p =? "3D"); reflexivity.
Qed.

Lemma X7_witness :
  let p := submit Demo.two_nodules (Demo.built "3D" "finetune-hiera") in
  In NoGradEnter (events (predict Faulty.bad_forward p)) /\
  outcome (predict Faulty.bad_forward p)
  = Err (RuntimeError "CUDA out of memory") /\
  List.last (events (predict Faulty.bad_forward p)) NoGradEnter = NoGradExit.
Proof.
  cbv zeta.
  assert (Hin : In NoGradEnter
                   (events (predict Faulty.bad_forward
                              (submit Demo.two_nodules
                                 (Demo.built "3D" "finetune-hiera")))))
    by (vm_compute; tauto).
  split; [exact Hin|].
  destruct (X7_no_grad_is_always_left Faulty.bad_forward _ Hin)
    as (pre & model0 & ckpt & batch & Hev & _ & Hout & _).
  split; [rewrite Hout; reflexivity|].
  rewrite Hev.
  change (pre ++ [NoGradEnter;
                  Forward (eval (set_state_dict model0 ckpt)) batch;
                  NoGradExit])
    with (pre ++ [NoGradEnter;
                  Forward (eval (set_state_dict model0 ckpt)) batch]
              ++ [NoGradExit]).
  rewrite app_assoc. apply List.last_last.
Defined.

(** ** What is logged *)

Section Logging.

Variable env : Env.

Lemma log_lines_of_call p :
  List.filter is_log (events (predict env p)) = log_events p (mode p).
Proof.
  rewrite predict_run. cbn [events snd].
  destruct (process_model_trace env (mode p) p)
    as (k & cs & tail & batch & model & _ & -> & [rest Hrest]).
  rewrite !List.filter_app.
  assert (List.filter is_log tail = []) as ->.
  { assert (Hall : List.filter is_log
                     (inference_events (checkpoint_path p) model batch) = [])
      by reflexivity.
    rewrite Hrest, List.filter_app in Hall. apply app_eq_nil in Hall. tauto. }
  assert (List.filter is_log
            (map (extract_event p (output_shape_for (mode p) p) (mode p))
                 (firstn k cs)) = []) as ->
    by (induction (firstn k cs) as [|c l IH]; [reflexivity|exact IH]).
  rewrite !app_nil_r. unfold log_events.
  destruct (suppress_logs p); reflexivity.
Qed.

Lemma log_lines_of_init mode_arg name b :
  List.filter is_log (events (__init__ mode_arg b name tt))
  = if b then [] else [LogInfo "Initializing the deep learning system"].
Proof.
  unfold __init__.
  destruct ((mode_arg =? "3D") && contains "hiera" (lower name));
    [destruct b; reflexivity|].
  destruct ((mode_arg =? "2D") && contains "hiera" (lower name));
    [destruct b; reflexivity|].
  destruct ((mode_arg =? "2D") && contains "vit" (lower name));
    destruct b; reflexivity.
Qed.

End Logging.

(** X8.  What the code logs.  With [suppress_logs] set, construction and
    a request log nothing at all, after any history.  Without it,
    construction and the request log exactly two lines: "Initializing the
    deep learning system" at construction and "Processing in <mode>" at
    the call, whether the call returns or raises; and a construction that
    is rejected has logged the first line before raising. *)
Theorem X8_log_lines
        (env : Env) (mode_arg name : string) (history : list Request)
        (rq : Request) :
  List.filter is_log (snd (session env mode_arg true name history rq)) = [] /\
  (forall p,
      outcome (__init__ mode_arg false name tt) = Ok p ->
      List.filter is_log (snd (session env mode_arg false name history rq))
      = [LogInfo "Initializing the deep learning system";
         LogInfo ("Processing in " +:+ mode_arg)]) /\
  (forall e,
      outcome (__init__ mode_arg false name tt) = Err e ->
      snd (session env mode_arg false name history rq)
      = [LogInfo "Initializing the deep learning system"]).
Proof.
  assert (Hs : forall b,
             List.filter is_log (snd (session env mode_arg b name history rq))
             = match outcome (__init__ mode_arg b name tt) with
               | Ok _ =>
                   (if b then []
                    else [LogInfo "Initializing the deep learning system"])
                     ++ (if b then []
                         else [LogInfo ("Processing in " +:+ mode_arg)])
               | Err _ =>
                   if b then []
                   else [LogInfo "Initializing the deep learning system"]
               end).
  { intros b. unfold session.
    pose proof (log_lines_of_init mode_arg name b) as Hi.
    pose proof (ready_other_model env mode_arg name b) as Hr.
    destruct (__init__ mode_arg b name tt) as [[[p|e] u] ev0];
      cbn [outcome events fst snd] in *; [|exact Hi].
    rewrite List.filter_app, Hi, log_lines_of_call.
    destruct (Hr p history rq eq_refl) as (Hm & Hsl & _).
    unfold log_events. rewrite Hm, Hsl. reflexivity. }
  split; [|split].
  - rewrite Hs. destruct (outcome (__init__ mode_arg true name tt));
      reflexivity.
  - intros p Hp. rewrite Hs, Hp. reflexivity.
  - intros e He. unfold session.
    rewrite (init_flag mode_arg name false) in *.
    cbn [outcome fst snd] in He.
    destruct (outcome (__init__ mode_arg false name tt)) as [p|e'] eqn:Ho;
      [discriminate He|].
    cbn [snd]. f_equal.
    unfold __init__ in *.
    destruct ((mode_arg =? "3D") && contains "hiera" (lower name));
      [discriminate Ho|].
    destruct ((mode_arg =? "2D") && contains "hiera" (lower name));
      [discriminate Ho|].
    destruct ((mode_arg =? "2D") && contains "vit" (lower name));
      [discriminate Ho|reflexivity].
Qed.

Lemma X8_witness :
  outcome (__init__ "3D" false "finetune-hiera" tt)
  = Ok (Demo.built "3D" "finetune-hiera") /\
  List.filter is_log
    (snd (session Demo.env "3D" false "finetune-hiera" [Demo.two_nodules]
                  Demo.one_nodule_no_spacing))
  = [LogInfo "Initializing the deep learning system";
     LogInfo "Processing in 3D"] /\
  outcome (__init__ "3D" false "resnet" tt)
  = Err (ValueError "Invalid mode and/or model_name.") /\
  snd (session Demo.env "3D" false "resnet" [] Demo.two_nodules)
  = [LogInfo "Initializing the deep learning system"].
Proof.
  split; [reflexivity|]. split.
  { exact (proj1 (proj2 (X8_log_lines Demo.env "3D" "finetune-hiera"
                                      [Demo.two_nodules]
                                      Demo.one_nodule_no_spacing))
                 _ eq_refl). }
  split; [reflexivity|].
  exact (proj2 (proj2 (X8_log_lines Demo.env "3D" "resnet" []
                                    Demo.two_nodules))
               _ eq_refl).
Defined.

(** X9.  The architecture is chosen from the lower-cased name, the
    checkpoint is looked up under the name as it was spelled.  Two names
    that differ in letter case only are accepted or rejected alike and
    select the same variant, but each object keeps its own spelling in
    [model_name] and therefore loads from its own path. *)
Theorem X9_selection_ignores_case
        (mode_arg : string) (flag : bool) (n1 n2 : string) :
  lower n1 = lower n2 ->
  match outcome (__init__ mode_arg flag n1 tt),
        outcome (__init__ mode_arg flag n2 tt) with
  | Ok p1, Ok p2 =>
      variant p1 = variant p2 /\
      model_name p1 = n1 /\ model_name p2 = n2 /\
      checkpoint_path p1
      = os_path_join "/opt/app/resources/" [n1; "best_metric_model.pth"] /\
      checkpoint_path p2
      = os_path_join "/opt/app/resources/" [n2; "best_metric_model.pth"]
  | Err e1, Err e2 => e1 = e2
  | _, _ => False
  end.
Proof.
  intros H. unfold __init__. rewrite H.
  destruct ((mode_arg =? "3D") && contains "hiera" (lower n2));
    [destruct flag; cbn; repeat split|].
  destruct ((mode_arg =? "2D") && contains "hiera" (lower n2));
    [destruct flag; cbn; repeat split|].
  destruct ((mode_arg =? "2D") && contains "vit" (lower n2));
    destruct flag; cbn; repeat split.
Qed.

Lemma X9_witness :
  lower "Finetune-HIERA" = lower "finetune-hiera" /\
  variant (Demo.built "3D" "Finetune-HIERA")
  = variant (Demo.built "3D" "finetune-hiera") /\
  checkpoint_path (Demo.built "3D" "Finetune-HIERA")
  = "/opt/app/resources/Finetune-HIERA/best_metric_model.pth".
Proof.
  split; [reflexivity|].
  pose proof (X9_selection_ignores_case
                "3D" false "Finetune-HIERA" "finetune-hiera" eq_refl) as H.
  change (outcome (__init__ "3D" false "Finetune-HIERA" tt))
    with (Ok (Demo.built "3D" "Finetune-HIERA")) in H.
  change (outcome (__init__ "3D" false "finetune-hiera" tt))
    with (Ok (Demo.built "3D" "finetune-hiera")) in H.
  destruct H as (H1 & _ & _ & H2 & _).
  split; [exact H1|]. rewrite H2. reflexivity.
Defined.

(** ** Patches of another layout *)

Section Layouts.

Variable env : Env.


End Layouts.



(** X12.  [extract_patch] reads the object and never writes it.  It calls
    the resampler at most once, with the coordinate, the output shape and
    the mode it was given, and exactly once whenever it returns a patch.
    Before [define_inputs] it raises AttributeError for [image], and with
    an image but no header AttributeError for [header], in both cases
    without calling the resampler. *)
Theorem X12_extract_patch_reads_only
        (env : Env) (p : Processor) (c : Coord) (sh : list Z) (m : string) :
  final (extract_patch env c sh m p) = p /\
  (events (extract_patch env c sh m p) = [] \/
   events (extract_patch env c sh m p)
   = [ExtractPatch c sh (pitch p, pitch p, pitch p) true m]) /\
  (forall patch,
      outcome (extract_patch env c sh m p) = Ok patch ->
      events (extract_patch env c sh m p)
      = [ExtractPatch c sh (pitch p, pitch p, pitch p) true m]) /\
  (image p = None ->
   extract_patch env c sh m p = (Err (AttributeError "image"), p, [])) /\
  (forall img,
      image p = Some img -> header p = None ->
      extract_patch env c sh m p = (Err (AttributeError "header"), p, [])).
Proof.
  split; [apply extract_patch_state|].
  split; [apply extract_patch_events|].
  split; [apply extract_patch_ok_events|].
  split.
  - intros Hi. unfold extract_patch.
    rewrite bind_get, bind_getattr, Hi. reflexivity.
  - intros img Hi Hh. unfold extract_patch.
    rewrite bind_get, bind_getattr, Hi, bind_getattr, Hh. reflexivity.
Qed.

Lemma X12_witness :
  let p := Demo.built "3D" "finetune-hiera" in
  image p = None /\
  extract_patch Demo.env [1; 2; 3]%Q [16; 64; 64]%Z "3D" p
  = (Err (AttributeError "image"), p, []).
Proof.
  cbv zeta. split; [reflexivity|].
  exact (proj1 (proj2 (proj2 (proj2 (X12_extract_patch_reads_only
                                       Demo.env
                                       (Demo.built "3D" "finetune-hiera")
                                       [1; 2; 3]%Q [16; 64; 64]%Z "3D"))))
               eq_refl).
Defined.
